(** * Invoice QC service: extraction and validation

    A shallow embedding of [invoice_qc/models.py], [invoice_qc/utils.py],
    [invoice_qc/extractor.py], [invoice_qc/validator.py] and the commands of
    [invoice_qc/cli.py], followed by the properties of the validation engine,
    the summary aggregator, the extractors and the commands.

    Conventions of the embedding:
    - Python [float] is IEEE binary64, modelled by Rocq's primitive floats;
    - Python [int] is [Z] (no wrap-around), positions of [enumerate] are [nat];
    - Python [str] is [string]; the string builtins below are exact on ASCII
      text (code points above 127 are passed through unchanged);
    - [Optional[T]] is [option T];
    - a raised exception is the [Raise] branch of [result];
    - a [dict] or [Counter] is a [gmap]. *)

From Stdlib Require Import Floats ZArith String Ascii DecimalString DecimalNat.
From stdpp Require Import gmap strings list.

Set Warnings "-inexact-float".
Local Open Scope string_scope.
Local Open Scope list_scope.
Local Open Scope Z_scope.

(** ** Exceptions *)

Inductive exn : Type :=
  | NameError (name : string)
  | ValidationError (model : string) (fields : list string).

Inductive result (A : Type) : Type :=
  | Ok (a : A)
  | Raise (e : exn).
Arguments Ok {A} a.
Arguments Raise {A} e.

Definition result_bind {A B : Type} (f : A → result B) (m : result A) : result B :=
  match m with
  | Ok a => f a
  | Raise e => Raise e
  end.

#[global] Instance result_mbind : MBind result := @result_bind.
#[global] Instance result_mret : MRet result := @Ok.

Definition raises {A : Type} (m : result A) : Prop := ∃ e, m = Raise e.

(** ** Python string builtins used by the sources *)

Module PyStr.

(** [str.isspace] on one character, which is also what [\s] matches. *)
Definition is_space (c : ascii) : bool :=
  let n := nat_of_ascii c in
  ((9 <=? n)%nat && (n <=? 13)%nat) || ((28 <=? n)%nat && (n <=? 32)%nat).

(** The line boundaries of [str.splitlines]. *)
Definition is_linebreak (c : ascii) : bool :=
  let n := nat_of_ascii c in
  ((10 <=? n)%nat && (n <=? 13)%nat) || ((28 <=? n)%nat && (n <=? 30)%nat).

Definition lower_char (c : ascii) : ascii :=
  let n := nat_of_ascii c in
  if ((65 <=? n)%nat && (n <=? 90)%nat) then ascii_of_nat (n + 32) else c.

Definition upper_char (c : ascii) : ascii :=
  let n := nat_of_ascii c in
  if ((97 <=? n)%nat && (n <=? 122)%nat) then ascii_of_nat (n - 32) else c.

Fixpoint map_chars (f : ascii → ascii) (s : string) : string :=
  match s with
  | EmptyString => EmptyString
  | String c r => String (f c) (map_chars f r)
  end.

Definition lower : string → string := map_chars lower_char.
Definition upper : string → string := map_chars upper_char.

Fixpoint lstrip (s : string) : string :=
  match s with
  | EmptyString => EmptyString
  | String c r => if is_space c then lstrip r else s
  end.

Fixpoint rstrip (s : string) : string :=
  match s with
  | EmptyString => EmptyString
  | String c r =>
      match rstrip r with
      | EmptyString => if is_space c then EmptyString else String c EmptyString
      | r' => String c r'
      end
  end.

Definition strip (s : string) : string := rstrip (lstrip s).

(** [s.startswith(p)] *)
Fixpoint starts_with (p s : string) : bool :=
  match p with
  | EmptyString => true
  | String a p' =>
      match s with
      | EmptyString => false
      | String b s' => Ascii.eqb a b && starts_with p' s'
      end
  end.


(** [sub in s] *)
Fixpoint contains (sub s : string) : bool :=
  starts_with sub s ||
  match s with
  | EmptyString => false
  | String _ r => contains sub r
  end.

(** [s.replace(",", "")] *)
Fixpoint remove_commas (s : string) : string :=
  match s with
  | EmptyString => EmptyString
  | String c r => if Ascii.eqb c "," then remove_commas r else String c (remove_commas r)
  end.

(** [s.split(",")[0]] *)
Fixpoint before_comma (s : string) : string :=
  match s with
  | EmptyString => EmptyString
  | String c r => if Ascii.eqb c "," then EmptyString else String c (before_comma r)
  end.

(** [sep.join(l)] *)
Fixpoint join (sep : string) (l : list string) : string :=
  match l with
  | [] => EmptyString
  | [x] => x
  | x :: r => x +:+ sep +:+ join sep r
  end.

(** [s.splitlines()]: [cur] is the line being read, reversed; [after_cr]
    records that the previous character was a carriage return, so that a
    line feed right after it belongs to the same boundary. *)
Fixpoint splitlines_go (s : string) (cur : string) (after_cr : bool) : list string :=
  match s with
  | EmptyString =>
      match cur with
      | EmptyString => []
      | _ => [String.rev cur]
      end
  | String c r =>
      if Ascii.eqb c "010" && after_cr then splitlines_go r EmptyString false
      else if is_linebreak c then
        String.rev cur :: splitlines_go r EmptyString (Ascii.eqb c "013")
      else splitlines_go r (String c cur) false
  end.

Definition splitlines (s : string) : list string := splitlines_go s EmptyString false.

(** [re.sub(r"\s+", " ", s)]: every maximal run of whitespace becomes one
    space. [in_run] records that the previous character was whitespace. *)
Fixpoint collapse_ws_go (s : string) (in_run : bool) : string :=
  match s with
  | EmptyString => EmptyString
  | String c r =>
      if is_space c then
        if in_run then collapse_ws_go r true else String " " (collapse_ws_go r true)
      else String c (collapse_ws_go r false)
  end.

Definition collapse_ws (s : string) : string := collapse_ws_go s false.

(** [re.split(r"\s{2,}", s)]: the separators are the maximal runs of two or
    more whitespace characters; one whitespace character alone stays in its
    segment. *)
Inductive split_mode : Type :=
  | InSegment (cur : string)
  | OneSpace (cur : string) (w : ascii)
  | InSeparator.

Fixpoint split_ws2_go (s : string) (m : split_mode) : list string :=
  match s with
  | EmptyString =>
      match m with
      | InSegment cur => [String.rev cur]
      | OneSpace cur w => [String.rev (String w cur)]
      | InSeparator => [EmptyString]
      end
  | String c r =>
      match m with
      | InSegment cur =>
          if is_space c then split_ws2_go r (OneSpace cur c)
          else split_ws2_go r (InSegment (String c cur))
      | OneSpace cur w =>
          if is_space c then String.rev cur :: split_ws2_go r InSeparator
          else split_ws2_go r (InSegment (String c (String w cur)))
      | InSeparator =>
          if is_space c then split_ws2_go r InSeparator
          else split_ws2_go r (InSegment (String c EmptyString))
      end
  end.

Definition split_ws2 (s : string) : list string := split_ws2_go s (InSegment EmptyString).

(** [str(n)] for a position [n] of [enumerate]. *)
Definition str_nat (n : nat) : string := NilEmpty.string_of_uint (Nat.to_uint n).

(** Truthiness of a [float]: [bool(x)] is [x != 0.0]. *)
Definition float_truthy (x : float) : bool := negb (PrimFloat.eqb x 0%float).

(** [o or d] for [o : Optional[float]]. *)
Definition float_or (o : option float) (d : float) : float :=
  match o with
  | Some x => if float_truthy x then x else d
  | None => d
  end.

(** [o or d] for [o : Optional[str]]. *)
Definition str_or (o : option string) (d : string) : string :=
  match o with
  | Some EmptyString | None => d
  | Some s => s
  end.

(** [sum(xs)] over floats: the accumulator starts at the integer 0. *)
Definition fsum (xs : list float) : float :=
  fold_left PrimFloat.add xs 0%float.

End PyStr.

(** ** models.py *)

Module Models.

(** [datetime.date]: ordered as the triple (year, month, day). *)
Record date : Type := Date { year : Z; month : Z; day : Z }.

#[global] Instance date_eq_dec : EqDecision date.
Proof. solve_decision. Defined.

#[global] Instance date_countable : Countable date.
Proof.
  apply (inj_countable' (λ d, (year d, month d, day d))
                        (λ t, Date t.1.1 t.1.2 t.2)).
  by intros [].
Defined.

Definition date_cmp (a b : date) : comparison :=
  match year a ?= year b with
  | Eq =>
      match month a ?= month b with
      | Eq => day a ?= day b
      | c => c
      end
  | c => c
  end.

Definition date_leb (a b : date) : bool :=
  match date_cmp a b with Gt => false | _ => true end.

Definition date_ltb (a b : date) : bool :=
  match date_cmp a b with Lt => true | _ => false end.

Record LineItem : Type := mkLineItem {
  description : string;
  quantity : float;
  unit_price : float;
  line_total : float;
}.

(** The constraint [ge=0] of a [Field]. *)
Definition ge0 (x : float) : bool := PrimFloat.leb 0%float x.

(** The validator of [line_total]. [qty] and [price] are the entries of
    [values], present when those fields passed their own validation. The
    value [v] has passed the float validation, so the branch [v is None] of
    the source cannot be taken. *)
Definition validate_line_total (v : float) (qty price : option float) : float :=
  match qty, price with
  | Some q, Some p =>
      let expected := PrimFloat.mul q p in
      if PrimFloat.ltb 0.05%float (PrimFloat.abs (PrimFloat.sub expected v)) then v
      else v
  | _, _ => v
  end.

(** [LineItem(description=..., quantity=..., unit_price=..., line_total=...)]:
    the three numbers are checked against [ge=0] and the fields that fail
    are reported together. *)
Definition LineItem_new (d : string) (q u t : float) : result LineItem :=
  let failed :=
    (if ge0 q then [] else ["quantity"])
    ++ (if ge0 u then [] else ["unit_price"])
    ++ (if ge0 t then [] else ["line_total"]) in
  match failed with
  | [] => Ok (mkLineItem d q u (validate_line_total t (Some q) (Some u)))
  | _ => Raise (ValidationError "LineItem" failed)
  end.

Record Invoice : Type := mkInvoice {
  invoice_number : string;
  invoice_date : date;
  due_date : option date;
  seller_name : string;
  seller_address : option string;
  seller_tax_id : option string;
  buyer_name : string;
  buyer_address : option string;
  buyer_tax_id : option string;
  currency : string;
  net_total : float;
  tax_amount : float;
  gross_total : float;
  payment_terms : option string;
  line_items : list LineItem;
}.

(** [validate_currency]: both branches return the normalised code. *)
Definition validate_currency (v : string) : string := PyStr.strip (PyStr.upper v).

Fixpoint validate_line_items (raw : list LineItem) : result (list LineItem) :=
  match raw with
  | [] => Ok []
  | li :: rest =>
      li' ← LineItem_new (description li) (quantity li) (unit_price li) (line_total li);
      rest' ← validate_line_items rest;
      Ok (li' :: rest')
  end.

(** [Invoice.parse_obj(raw)], the way the command line and the request
    handler build a record from field values: the currency is normalised and
    every line item goes through [LineItem]'s own validation. Where the caller
    passes [LineItem] objects instead ([extract_invoice_from_pdf]), pydantic
    keeps them as they are; for objects that [LineItem_new] built this is the
    same record (see [validate_line_items_constructed]). *)
Definition Invoice_new (raw : Invoice) : result Invoice :=
  match validate_line_items (line_items raw) with
  | Ok items =>
      Ok (mkInvoice (invoice_number raw) (invoice_date raw) (due_date raw)
            (seller_name raw) (seller_address raw) (seller_tax_id raw)
            (buyer_name raw) (buyer_address raw) (buyer_tax_id raw)
            (validate_currency (currency raw))
            (net_total raw) (tax_amount raw) (gross_total raw)
            (payment_terms raw) items)
  | Raise _ => Raise (ValidationError "Invoice" ["line_items"])
  end.

Record InvoiceValidationResult : Type := mkResult {
  invoice_id : string;
  is_valid : bool;
  errors : list string;
}.

Record ValidationSummary : Type := mkSummary {
  total_invoices : Z;
  valid_invoices : Z;
  invalid_invoices : Z;
  error_counts : gmap string Z;
}.

End Models.

(** ** validator.py *)

Module Validator.
Import Models.

(** [not s] for a string. *)
Definition str_falsy (s : string) : bool :=
  match s with EmptyString => true | _ => false end.

(** [not d] for a [date]: a date object is always truthy. *)
Definition date_falsy (d : date) : bool := false.

Definition _check_completeness (invoice : Invoice) : list string :=
  (if str_falsy (invoice_number invoice) then ["missing_field: invoice_number"] else [])
  ++ (if date_falsy (invoice_date invoice) then ["missing_field: invoice_date"] else [])
  ++ (if str_falsy (seller_name invoice) then ["missing_field: seller_name"] else [])
  ++ (if str_falsy (buyer_name invoice) then ["missing_field: buyer_name"] else []).

Definition min_date : date := Date 2000 1 1.
Definition max_date : date := Date 2100 1 1.

Definition in_date_range (d : date) : bool := date_leb min_date d && date_leb d max_date.

Definition allowed_currencies : list string := ["INR"; "EUR"; "USD"; "GBP"].

Definition flt_neg (x : float) : bool := PrimFloat.ltb x 0%float.

Definition line_error (idx : nat) (field : string) : string :=
  "format_error: line_" +:+ PyStr.str_nat idx +:+ "_" +:+ field +:+ "_negative".

Definition line_item_errors (idx : nat) (item : LineItem) : list string :=
  (if flt_neg (quantity item) then [line_error idx "quantity"] else [])
  ++ (if flt_neg (unit_price item) then [line_error idx "unit_price"] else [])
  ++ (if flt_neg (line_total item) then [line_error idx "line_total"] else []).

(** The loop [for idx, item in enumerate(invoice.line_items)], from
    position [idx] on. *)
Fixpoint line_items_errors (idx : nat) (items : list LineItem) : list string :=
  match items with
  | [] => []
  | item :: rest => line_item_errors idx item ++ line_items_errors (S idx) rest
  end.

Definition _check_format_and_ranges (invoice : Invoice) : list string :=
  (if negb (in_date_range (invoice_date invoice))
   then ["format_error: invoice_date_out_of_range"] else [])
  ++ (match due_date invoice with
      | Some d => if negb (in_date_range d)
                  then ["format_error: due_date_out_of_range"] else []
      | None => []
      end)
  ++ (if decide (PyStr.upper (currency invoice) ∈ allowed_currencies)
      then [] else ["format_error: currency_invalid"])
  ++ (if flt_neg (net_total invoice) then ["format_error: net_total_negative"] else [])
  ++ (if flt_neg (tax_amount invoice) then ["format_error: tax_amount_negative"] else [])
  ++ (if flt_neg (gross_total invoice) then ["format_error: gross_total_negative"] else [])
  ++ line_items_errors 0 (line_items invoice).

Definition tolerance : float := 0.05%float.

Definition sum_lines (invoice : Invoice) : float :=
  PyStr.fsum (line_total <$> line_items invoice).

(** [abs(a - b) > tolerance] *)
Definition exceeds_tolerance (a b : float) : bool :=
  PrimFloat.ltb tolerance (PrimFloat.abs (PrimFloat.sub a b)).

Definition _check_business_rules (invoice : Invoice) : list string :=
  (match line_items invoice with
   | [] => []
   | _ :: _ =>
       if exceeds_tolerance (sum_lines invoice) (net_total invoice)
       then ["business_rule_failed: line_items_net_mismatch"] else []
   end)
  ++ (if exceeds_tolerance (PrimFloat.add (net_total invoice) (tax_amount invoice))
                           (gross_total invoice)
      then ["business_rule_failed: totals_mismatch"] else [])
  ++ (match due_date invoice with
      | Some d => if date_ltb d (invoice_date invoice)
                  then ["business_rule_failed: due_before_invoice_date"] else []
      | None => []
      end).

(** [error_counter[e] += 1] on a [Counter]: a missing key counts as 0. *)
Definition counter_incr (e : string) (c : gmap string Z) : gmap string Z :=
  <[e := default 0 (c !! e) + 1]> c.

(** [for e in errors: error_counter[e] += 1] *)
Definition count_errors (errs : list string) (c : gmap string Z) : gmap string Z :=
  fold_left (λ c e, counter_incr e c) errs c.

(** The error list of the first pass for one invoice. *)
Definition invoice_errors (inv : Invoice) : list string :=
  _check_completeness inv ++ _check_format_and_ranges inv ++ _check_business_rules inv.

(** The result object the first pass appends for one invoice. *)
Definition first_pass_result (inv : Invoice) : InvoiceValidationResult :=
  let errs := invoice_errors inv in
  mkResult (invoice_number inv) (Nat.eqb (length errs) 0) errs.

(** One iteration of the first loop, on the pair (results, error_counter). *)
Definition first_pass_step (st : list InvoiceValidationResult * gmap string Z)
    (inv : Invoice) : list InvoiceValidationResult * gmap string Z :=
  (st.1 ++ [first_pass_result inv], count_errors (invoice_errors inv) st.2).

Definition first_pass (invoices : list Invoice)
    : list InvoiceValidationResult * gmap string Z :=
  fold_left first_pass_step invoices ([], ∅).

Definition duplicate_error : string := "anomaly: duplicate_invoice".

Definition dup_key (inv : Invoice) : string * string * date :=
  (PyStr.lower (seller_name inv), invoice_number inv, invoice_date inv).

(** What the second loop does to a result whose key was seen before:
    [res.errors.append(...)] and [res.is_valid = False]. *)
Definition mark_duplicate (res : InvoiceValidationResult) : InvoiceValidationResult :=
  mkResult (invoice_id res) false (errors res ++ [duplicate_error]).

(** State of the second loop: the results already visited (each result
    object is visited once and only there mutated), the [seen] dictionary
    and the error counter. *)
Record dup_state : Type := mkDupState {
  visited : list InvoiceValidationResult;
  seen : gmap (string * string * date) string;
  counter : gmap string Z;
}.

Definition second_pass_step (st : dup_state)
    (p : InvoiceValidationResult * Invoice) : dup_state :=
  let key := dup_key p.2 in
  match seen st !! key with
  | Some _ =>
      mkDupState (visited st ++ [mark_duplicate p.1]) (seen st)
                 (counter_incr duplicate_error (counter st))
  | None =>
      mkDupState (visited st ++ [p.1]) (<[key := invoice_number p.2]> (seen st))
                 (counter st)
  end.

Definition second_pass (results : list InvoiceValidationResult)
    (invoices : list Invoice) (error_counter : gmap string Z) : dup_state :=
  fold_left second_pass_step (zip results invoices) (mkDupState [] ∅ error_counter).

(** [sum(1 for r in results if not r.is_valid)] *)
Definition count_invalid (results : list InvoiceValidationResult) : Z :=
  Z.of_nat (length (filter (λ r, is_valid r = false) results)).

Definition validate_invoices (invoices : list Invoice)
    : list InvoiceValidationResult * ValidationSummary :=
  let '(results0, counter0) := first_pass invoices in
  let st := second_pass results0 invoices counter0 in
  let results := visited st in
  let total := Z.of_nat (length results) in
  let invalid := count_invalid results in
  let valid := total - invalid in
  (results, mkSummary total valid invalid (counter st)).

End Validator.

(** ** Library functions the sources call

    The regular-expression engine, [datetime.strptime], the [float]
    constructor, [date.today] and [os.path.basename] are library code; the
    embedding takes them as parameters.

    - [re_search pattern ignorecase text] is [re.search]: the groups of the
      leftmost match, group 0 first, or [None];
    - [strptime value fmt] is the date of [datetime.strptime(value, fmt)], or
      [None] where Python raises [ValueError];
    - [py_float s] is [float(s)], or [None] where Python raises [ValueError]. *)

Definition re_search_t : Type := string → bool → string → option (list string).
Definition strptime_t : Type := string → string → option Models.date.
Definition py_float_t : Type := string → option float.

(** [match.group(k)] *)
Definition group (m : list string) (k : nat) : string := default "" (m !! k).

(** ** utils.py *)

Module Utils.
Import Models.

Definition DATE_FORMATS : list string :=
  ["%Y-%m-%d"; "%d/%m/%Y"; "%d-%m-%Y"; "%d.%m.%Y"; "%d %b %Y"; "%d %B %Y"].

Fixpoint try_formats (strptime : strptime_t) (value : string) (fmts : list string)
    : option date :=
  match fmts with
  | [] => None
  | fmt :: rest =>
      match strptime value fmt with
      | Some d => Some d
      | None => try_formats strptime value rest
      end
  end.

Definition parse_date (strptime : strptime_t) (value : string) : option date :=
  try_formats strptime (PyStr.strip value) DATE_FORMATS.

Fixpoint find_first_match (re_search : re_search_t) (patterns : list string)
    (text : string) (ignorecase : bool) : option (list string) :=
  match patterns with
  | [] => None
  | pattern :: rest =>
      match re_search pattern ignorecase text with
      | Some m => Some m
      | None => find_first_match re_search rest text ignorecase
      end
  end.

Definition parse_float_safe (py_float : py_float_t) (raw : string) : option float :=
  py_float (PyStr.strip (PyStr.remove_commas raw)).

Definition nonempty (s : string) : bool :=
  match s with EmptyString => false | _ => true end.

Definition clean_text (text : string) : string :=
  let lines := (λ line, PyStr.strip (PyStr.collapse_ws line)) <$> PyStr.splitlines text in
  PyStr.join (String "010" EmptyString) (filter (λ line, nonempty line = true) lines).

End Utils.

(** ** extractor.py *)

Module Extractor.
Import Models Utils.

(** The names bound at module level in [extractor.py]: its imports and its
    functions. The other extractors bind [re] locally ([import re] in their
    bodies); no module-level statement binds it. *)
Definition module_globals : list string :=
  ["json"; "os"; "date"; "List"; "Dict"; "Any"; "Optional"; "pdfplumber";
   "Invoice"; "LineItem";
   "clean_text"; "find_first_match"; "parse_date"; "parse_float_safe";
   "extract_text_from_pdf"; "extract_invoice_number"; "extract_dates";
   "extract_currency"; "extract_parties"; "extract_totals";
   "extract_payment_terms"; "extract_line_items"; "extract_invoice_from_pdf";
   "extract_from_dir"; "write_invoices_to_json"].

(** Reading a name that is not local to the running function. *)
Definition load_global (name : string) : result unit :=
  if decide (name ∈ module_globals) then Ok () else Raise (NameError name).

Section WithLibrary.
Variable re_search : re_search_t.
Variable strptime : strptime_t.
Variable py_float : py_float_t.
Variable today : date.
Variable basename : string → string.

(** [pages] holds what [page.extract_text()] returned for each page. *)
Definition extract_text_from_pdf (pages : list (option string)) : string :=
  clean_text (PyStr.join (String "010" EmptyString) ((λ p, PyStr.str_or p "") <$> pages)).

Definition extract_invoice_number (text : string) : result (option string) :=
  let patterns := ["(invoice\s*(no\.?|number|#)\s*[:\-]?\s*)(\S+)"] in
  _ ← load_global "find_first_match";
  _ ← load_global "re";
  match find_first_match re_search patterns text true with
  | Some m => Ok (Some (PyStr.strip (group m 3)))
  | None => Ok None
  end.

Definition extract_dates (text : string) : option date * option date :=
  let inv_patterns :=
    ["(invoice\s*date\s*[:\-]?\s*)([0-9./\-\sA-Za-z]+)";
     "(date\s*[:\-]?\s*)([0-9./\-\sA-Za-z]+)"] in
  let invoice_date :=
    match find_first_match re_search inv_patterns text true with
    | Some m => parse_date strptime (group m 2)
    | None => None
    end in
  let due_patterns := ["(due\s*date\s*[:\-]?\s*)([0-9./\-\sA-Za-z]+)"] in
  let due_date :=
    match find_first_match re_search due_patterns text true with
    | Some m => parse_date strptime (group m 2)
    | None => None
    end in
  (invoice_date, due_date).

Definition extract_currency (text : string) : string :=
  match re_search "\b(INR|EUR|USD|GBP)\b" true text with
  | Some m => PyStr.upper (group m 1)
  | None => "INR"
  end.

(** [grab_block(start_idx)] inside [extract_parties] *)
Definition grab_block (lines : list string) (start_idx : nat) : string :=
  PyStr.join " "
    (filter (λ l, nonempty l = true) (PyStr.strip <$> take 4 (drop start_idx lines))).

(** Position of the first line that matches [pattern], where the loop breaks. *)
Fixpoint first_line_matching (pattern : string) (lines : list string) (i : nat)
    : option nat :=
  match lines with
  | [] => None
  | line :: rest =>
      match re_search pattern true line with
      | Some _ => Some i
      | None => first_line_matching pattern rest (S i)
      end
  end.

Definition party_block (pattern : string) (lines : list string)
    : option string * option string :=
  match first_line_matching pattern lines 0 with
  | Some i =>
      let block := grab_block lines (i + 1) in
      if nonempty block then (Some (PyStr.before_comma block), Some block)
      else (None, None)
  | None => (None, None)
  end.

Definition opt_truthy (o : option string) : bool :=
  match o with Some s => nonempty s | None => false end.

Fixpoint tax_ids (lines : list string) (seller_tax_id buyer_tax_id : option string)
    : option string * option string :=
  match lines with
  | [] => (seller_tax_id, buyer_tax_id)
  | line :: rest =>
      match re_search "(GSTIN|VAT\s*ID|Tax\s*ID)\s*[:\-]?\s*(\S+)" true line with
      | Some m =>
          if negb (opt_truthy seller_tax_id) then
            tax_ids rest (Some (group m 2)) buyer_tax_id
          else if negb (opt_truthy buyer_tax_id) then
            (seller_tax_id, Some (group m 2))
          else tax_ids rest seller_tax_id buyer_tax_id
      | None => tax_ids rest seller_tax_id buyer_tax_id
      end
  end.

Definition extract_parties (text : string)
    : option string * option string * option string
      * option string * option string * option string :=
  let lines := PyStr.splitlines text in
  let '(seller_name, seller_address) := party_block "\b(seller|supplier)\b" lines in
  let '(buyer_name, buyer_address) :=
    party_block "\b(buyer|customer|bill to|ship to)\b" lines in
  let '(seller_tax_id, buyer_tax_id) := tax_ids lines None None in
  (seller_name, seller_address, seller_tax_id, buyer_name, buyer_address, buyer_tax_id).

(** The number on a totals line: the first run of digits, dots and commas. *)
Definition line_amount (line : string) (old : option float) : option float :=
  match re_search "([0-9.,]+)" false line with
  | Some m => parse_float_safe py_float (group m 1)
  | None => old
  end.

Definition totals_step (st : option float * option float * option float)
    (line : string) : option float * option float * option float :=
  let '(net_total, tax_amount, gross_total) := st in
  let l := PyStr.lower line in
  let net_total :=
    if PyStr.contains "net total" l || PyStr.contains "subtotal" l
    then line_amount line net_total else net_total in
  let tax_amount :=
    if PyStr.contains "tax" l || PyStr.contains "vat" l
    then line_amount line tax_amount else tax_amount in
  let gross_total :=
    if PyStr.contains "total" l
       && (PyStr.contains "grand" l || PyStr.contains "amount payable" l
           || PyStr.contains "invoice total" l
           || bool_decide (PyStr.strip l = "total"))
    then line_amount line gross_total else gross_total in
  (net_total, tax_amount, gross_total).

Definition extract_totals (text : string) : option float * option float * option float :=
  fold_left totals_step (PyStr.splitlines text) (None, None, None).

Definition extract_payment_terms (text : string) : option string :=
  let patterns := ["(payment\s*terms\s*[:\-]?\s*)(.+)"; "(terms\s*[:\-]?\s*)(.+)"] in
  match find_first_match re_search patterns text true with
  | Some m => Some (PyStr.strip (group m 2))
  | None => None
  end.

Definition is_header (line : string) : bool :=
  let l := PyStr.lower line in
  PyStr.contains "description" l && (PyStr.contains "qty" l || PyStr.contains "quantity" l).

(** The lines after the header line, if there is one. *)
Fixpoint after_header (lines : list string) : option (list string) :=
  match lines with
  | [] => None
  | line :: rest => if is_header line then Some rest else after_header rest
  end.

Definition is_totals_line (line : string) : bool :=
  let l := PyStr.lower line in
  PyStr.contains "subtotal" l || PyStr.contains "net total" l || PyStr.contains "total" l.

(** The body of the item loop for one line whose split gave [parts],
    at least three of them. *)
Definition item_of_parts (parts : list string) : option (result LineItem) :=
  let description := default "" (parts !! 0%nat) in
  let qty := PyStr.float_or (parse_float_safe py_float (default "" (parts !! 1%nat))) 0%float in
  let unit := PyStr.float_or (parse_float_safe py_float (default "" (parts !! 2%nat))) 0%float in
  let total :=
    PyStr.float_or (parse_float_safe py_float (default "" (last parts)))
                   (PrimFloat.mul qty unit) in
  if nonempty description then Some (LineItem_new description qty unit total)
  else None.

Fixpoint line_items_loop (lines : list string) (items : list LineItem)
    : result (list LineItem) :=
  match lines with
  | [] => Ok items
  | line :: rest =>
      if is_totals_line line then Ok items
      else
        let parts := PyStr.split_ws2 (PyStr.strip line) in
        if (length parts <? 3)%nat then line_items_loop rest items
        else
          match item_of_parts parts with
          | Some made => item ← made; line_items_loop rest (items ++ [item])
          | None => line_items_loop rest items
          end
  end.

Definition extract_line_items (text : string) : result (list LineItem) :=
  match after_header (PyStr.splitlines text) with
  | None => Ok []
  | Some body => line_items_loop body []
  end.

Definition extract_invoice_from_pdf (path : string) (pages : list (option string))
    : result Invoice :=
  let text := extract_text_from_pdf pages in
  let currency := extract_currency text in
  let '(inv_date, due_date) := extract_dates text in
  let '(seller_name, seller_address, seller_tax_id,
        buyer_name, buyer_address, buyer_tax_id) := extract_parties text in
  let '(net_total, tax_amount, gross_total) := extract_totals text in
  let payment_terms := extract_payment_terms text in
  line_items ← extract_line_items text;
  number ← extract_invoice_number text;
  let invoice_number := PyStr.str_or number (basename path) in
  let inv_date := default today inv_date in
  let net_total :=
    match net_total with
    | Some x => x
    | None =>
        match line_items with
        | [] => 0%float
        | _ => PyStr.fsum (line_total <$> line_items)
        end
    end in
  let tax_amount := default 0%float tax_amount in
  let gross_total :=
    match gross_total with
    | Some g => g
    | None =>
        PrimFloat.add (PyStr.float_or (Some net_total) 0%float)
                      (PyStr.float_or (Some tax_amount) 0%float)
    end in
  Invoice_new
    (mkInvoice invoice_number inv_date due_date
       (PyStr.str_or seller_name "UNKNOWN_SELLER") seller_address seller_tax_id
       (PyStr.str_or buyer_name "UNKNOWN_BUYER") buyer_address buyer_tax_id
       currency net_total tax_amount gross_total payment_terms line_items).

End WithLibrary.

Section WithFiles.
Variable re_search : re_search_t.
Variable strptime : strptime_t.
Variable py_float : py_float_t.
Variable today : date.
Variable basename : string → string.
(** [os.listdir], [os.path.join], and the page texts that [pdfplumber] reads
    from the file at a path. *)
Variable listdir : string → list string.
Variable path_join : string → string → string.
Variable pdf_pages : string → list (option string).



End WithFiles.

End Extractor.

(** ** An instance of the [float] constructor for running examples

    [decimal_float] reads a plain decimal literal: an optional sign, digits,
    and an optional fraction. The value is the quotient of the digits read as
    an integer by the power of ten of the fraction, both of which binary64
    holds exactly under the bounds checked below, so the one rounding of the
    division gives the nearest binary64 number, as [float] does. Every other
    string is answered [None]: the instance serves examples and stands for
    [float] on such literals only. *)

Module DecimalLiteral.

Definition digit_of (c : ascii) : option Z :=
  let n := nat_of_ascii c in
  if ((48 <=? n)%nat && (n <=? 57)%nat) then Some (Z.of_nat n - 48) else None.

Fixpoint digits_value (s : string) (acc : Z) : option Z :=
  match s with
  | EmptyString => Some acc
  | String c r =>
      match digit_of c with
      | Some d => digits_value r (acc * 10 + d)
      | None => None
      end
  end.

(** The text before the first dot, and the text after it. *)
Fixpoint split_dot (s : string) : string * string :=
  match s with
  | EmptyString => (EmptyString, EmptyString)
  | String c r =>
      if Ascii.eqb c "." then (EmptyString, r)
      else let '(a, b) := split_dot r in (String c a, b)
  end.

Definition float_of_Z (z : Z) : float := PrimFloat.of_uint63 (Uint63.of_Z z).

Definition decimal_float (s : string) : option float :=
  let '(negative, body) :=
    match s with
    | String "-" r => (true, r)
    | String "+" r => (false, r)
    | _ => (false, s)
    end in
  let '(int_part, frac_part) := split_dot body in
  let k := String.length frac_part in
  match digits_value (int_part +:+ frac_part) 0 with
  | Some m =>
      if bool_decide (int_part +:+ frac_part = EmptyString) then None
      else if bool_decide (2 ^ 53 <= m) || bool_decide (22 < k)%nat then None
      else
        let x := PrimFloat.div (float_of_Z m) (float_of_Z (10 ^ Z.of_nat k)) in
        Some (if negative then PrimFloat.opp x else x)
  | None => None
  end.

End DecimalLiteral.

(** ** Vocabulary of the statements *)

Module Spec.
Import Models Validator.

(** The codes of the format pass that name a line item. *)
Definition is_line_code (s : string) : bool := PyStr.starts_with "format_error: line_" s.

Definition line_fields : list string := ["quantity"; "unit_price"; "line_total"].

(** Every code of the three per-record passes that does not name a line
    item, in the order the passes can emit them. *)
Definition fixed_codes : list string :=
  ["missing_field: invoice_number"; "missing_field: invoice_date";
   "missing_field: seller_name"; "missing_field: buyer_name";
   "format_error: invoice_date_out_of_range"; "format_error: due_date_out_of_range";
   "format_error: currency_invalid"; "format_error: net_total_negative";
   "format_error: tax_amount_negative"; "format_error: gross_total_negative";
   "business_rule_failed: line_items_net_mismatch";
   "business_rule_failed: totals_mismatch";
   "business_rule_failed: due_before_invoice_date"].

(** Number of occurrences of [code] in one error list. *)
Definition occ (code : string) (errs : list string) : nat :=
  length (filter (λ e, e = code) errs).

(** Number of occurrences of [code] over all results. *)
Definition total_occ (code : string) (results : list InvoiceValidationResult) : nat :=
  sum_list ((λ r, occ code (errors r)) <$> results).

(** Number of results whose error list contains [code]. *)
Definition results_with (code : string) (results : list InvoiceValidationResult) : nat :=
  length (filter (λ r, code ∈ errors r) results).

(** The results of both passes, by recursion on the input: [prev] holds the
    keys of the records already visited. *)
Fixpoint flag_duplicates (prev : list (string * string * date)) (invoices : list Invoice)
    : list InvoiceValidationResult :=
  match invoices with
  | [] => []
  | inv :: rest =>
      (if decide (dup_key inv ∈ prev) then mark_duplicate (first_pass_result inv)
       else first_pass_result inv)
      :: flag_duplicates (prev ++ [dup_key inv]) rest
  end.

(** The count a [Counter] holds for [code]: 0 for a missing key. *)
Definition cnt (c : gmap string Z) (code : string) : Z := default 0 (c !! code).

(** Invariant of the second loop: the keys of [seen] are those of the
    records already visited. *)
Definition seen_keys (st : dup_state) (prev : list (string * string * date)) : Prop :=
  ∀ k, is_Some (seen st !! k) ↔ k ∈ prev.

(** A date of the calendar has a month and a day that start at 1. *)
Definition calendar_date (d : date) : Prop := 1 ≤ month d ∧ 1 ≤ day d.

(** Before 1 January 2000 or after 1 January 2100, for a calendar date. *)
Definition outside_window (d : date) : Prop :=
  year d < 2000 ∨ 2100 < year d ∨ (year d = 2100 ∧ (1 < month d ∨ 1 < day d)).

End Spec.

(** ** Records used as examples *)

Module Examples.
Import Models.

Definition acme_invoice (seller number cur : string) (net : float) : Invoice :=
  mkInvoice number (Date 2024 2 1) None seller None None "Beta" None None cur
            net 0%float net None [].

Definition dated_invoice (d : date) (due : option date) : Invoice :=
  mkInvoice "INV-1" d due "Acme" None None "Beta" None None "INR"
            100%float 18%float 118%float None [].

Definition itemised_invoice (net : float) (totals : list float) : Invoice :=
  mkInvoice "INV-1" (Date 2024 1 10) None "Acme" None None "Beta" None None "INR"
            net 0%float net None ((λ t, mkLineItem "Widget" 1%float t t) <$> totals).

Definition newline : string := String "010" EmptyString.

(** A table whose only item line has a negative quantity. *)
Definition negative_quantity_text : string :=
  "Description   Qty   Unit Price   Total" +:+ newline
  +:+ "Widget   -2   5.00   10.00" +:+ newline
  +:+ "Subtotal 10.00".

(** A table whose only item line ends in a total of zero. *)
Definition zero_total_text : string :=
  "Description   Qty   Unit Price   Total" +:+ newline
  +:+ "Widget   2   5.00   0.00" +:+ newline
  +:+ "Subtotal 10.00".

End Examples.

(** ** Vocabulary of the further properties *)

Module Coverage.
Import Models Validator Spec.

(** A counter without an entry for a count of zero. *)
Definition counter_pos (c : gmap string Z) : Prop :=
  ∀ code v, c !! code = Some v → 0 < v.

(** Number of different duplicate keys among the records. *)
Definition distinct_keys (invoices : list Invoice) : nat :=
  size (list_to_set (dup_key <$> invoices) : gset (string * string * date)).

(** A string whose only whitespace is single spaces: every whitespace
    character is a space and no two of them are adjacent. [prev_space] tells
    that the character before the string was whitespace. *)
Fixpoint collapsed_go (s : string) (prev_space : bool) : bool :=
  match s with
  | EmptyString => true
  | String c r =>
      if PyStr.is_space c then Ascii.eqb c " " && negb prev_space && collapsed_go r true
      else collapsed_go r false
  end.

Definition collapsed (s : string) : bool := collapsed_go s false.

Fixpoint no_linebreak (s : string) : bool :=
  match s with
  | EmptyString => true
  | String c r => negb (PyStr.is_linebreak c) && no_linebreak r
  end.

(** A line as [clean_text] leaves it: not blank, no whitespace at either end,
    single spaces inside. *)
Definition clean_line (l : string) : Prop :=
  l ≠ EmptyString ∧ PyStr.strip l = l ∧ collapsed l = true.

(** What every item that [extract_line_items] returns satisfies. *)
Definition extracted_item_ok (li : LineItem) : Prop :=
  description li ≠ EmptyString
  ∧ ge0 (quantity li) = true ∧ ge0 (unit_price li) = true ∧ ge0 (line_total li) = true
  ∧ (PyStr.float_truthy (line_total li) = true
     ∨ line_total li = PrimFloat.mul (quantity li) (unit_price li)).

(** The keyword test of [extract_totals] for the net total. *)
Definition net_keyword (line : string) : bool :=
  PyStr.contains "net total" (PyStr.lower line) || PyStr.contains "subtotal" (PyStr.lower line).

End Coverage.

(** ** cli.py

    The commands [validate] and [full_run] as functions of what they read,
    giving what they write and how they exit. The text they echo and the
    optional copy of the extracted records are left out. *)

Module Cli.
Import Models Validator Extractor.

(** What a command leaves behind: the report it wrote, if it got that far,
    and the exit status of the process. *)
Record outcome : Type := mkOutcome {
  report : option (ValidationSummary * list InvoiceValidationResult);
  status : Z;
}.

(** [[Invoice.parse_obj(obj) for obj in raw_invoices]] *)
Fixpoint parse_all (raw_invoices : list Invoice) : result (list Invoice) :=
  match raw_invoices with
  | [] => Ok []
  | obj :: rest =>
      inv ← Invoice_new obj;
      invs ← parse_all rest;
      Ok (inv :: invs)
  end.

(** The end of both commands: [raise typer.Exit(code=1)] when
    [fail_on_invalid] is set and a record is invalid. *)
Definition exit_status (fail_on_invalid : bool) (summary : ValidationSummary) : Z :=
  if fail_on_invalid && (0 <? invalid_invoices summary) then 1 else 0.

(** [validate]: [input_exists] is [input_path.exists()], [raw_invoices] what
    [json.load] read from the file. *)
Definition validate (input_exists : bool) (raw_invoices : list Invoice)
    (fail_on_invalid : bool) : result outcome :=
  if negb input_exists then Ok (mkOutcome None 1)
  else
    invoices ← parse_all raw_invoices;
    let '(results, summary) := validate_invoices invoices in
    Ok (mkOutcome (Some (summary, results)) (exit_status fail_on_invalid summary)).

Section WithFiles.
Variable re_search : re_search_t.
Variable strptime : strptime_t.
Variable py_float : py_float_t.
Variable today : date.
Variable basename : string → string.
Variable listdir : string → list string.
Variable path_join : string → string → string.
Variable pdf_pages : string → list (option string).


End WithFiles.

End Cli.

(** * Properties *)

Import Models Validator Spec Examples.

(** ** Codes as strings *)

Lemma string_of_uint_sep (d1 d2 : Decimal.uint) (s1 s2 : string) :
  NilEmpty.string_of_uint d1 +:+ String "_" s1 = NilEmpty.string_of_uint d2 +:+ String "_" s2 →
  d1 = d2 ∧ s1 = s2.
Proof.
  revert d2. induction d1 as [|d1 IH|d1 IH|d1 IH|d1 IH|d1 IH|d1 IH|d1 IH|d1 IH|d1 IH|d1 IH];
    intros [|d2|d2|d2|d2|d2|d2|d2|d2|d2|d2]; simpl; intros H;
    try discriminate H; try (injection H as H; apply IH in H as [-> ->]); auto.
  by injection H as ->.
Qed.

Lemma line_error_prefix idx field : is_line_code (line_error idx field) = true.
Proof. reflexivity. Qed.

Lemma line_error_inj i j f g :
  f ∈ line_fields → g ∈ line_fields → line_error i f = line_error j g → i = j ∧ f = g.
Proof.
  intros Hf Hg H. unfold line_error in H.
  apply (inj (String.append _)) in H.
  apply string_of_uint_sep in H as [Hd Hs].
  split; [by apply Unsigned.to_uint_inj|].
  unfold line_fields in *.
  repeat (apply elem_of_cons in Hf as [->|Hf]); [..|by apply elem_of_nil in Hf];
  repeat (apply elem_of_cons in Hg as [->|Hg]); try (by apply elem_of_nil in Hg);
  first [done | discriminate Hs].
Qed.

Lemma fixed_codes_NoDup : NoDup (duplicate_error :: fixed_codes).
Proof. apply (bool_decide_unpack _). by vm_compute. Qed.

Lemma fixed_codes_not_line code :
  code ∈ duplicate_error :: fixed_codes → is_line_code code = false.
Proof.
  intros H. unfold fixed_codes in H.
  repeat (apply elem_of_cons in H as [->|H]; [reflexivity|]).
  by apply elem_of_nil in H.
Qed.

(** ** Numbers *)

Lemma ge0_not_negative x : ge0 x = true → flt_neg x = false.
Proof.
  unfold ge0, flt_neg. rewrite leb_spec, ltb_spec.
  change (Prim2SF 0) with (S754_zero false).
  destruct (Prim2SF x) as [s|s| |s m e]; try destruct s; cbv; congruence.
Qed.

(** ** The line-item loop of the format pass *)

Lemma line_item_errors_elem idx item code :
  code ∈ line_item_errors idx item → ∃ f, f ∈ line_fields ∧ code = line_error idx f.
Proof.
  unfold line_item_errors, line_fields. intros H.
  repeat (apply elem_of_app in H as [H|H]);
    case_match; try (by apply elem_of_nil in H);
    apply list_elem_of_singleton in H as ->; eexists; (split; [|reflexivity]);
    set_solver.
Qed.

Lemma line_items_errors_elem idx items code :
  code ∈ line_items_errors idx items →
  ∃ i f, (idx ≤ i)%nat ∧ f ∈ line_fields ∧ code = line_error i f.
Proof.
  revert idx. induction items as [|item rest IH]; intros idx H; simpl in H.
  - by apply elem_of_nil in H.
  - apply elem_of_app in H as [H|H].
    + apply line_item_errors_elem in H as (f & Hf & ->). exists idx, f. auto.
    + apply IH in H as (i & f & Hi & Hf & ->). exists i, f. split; [lia|done].
Qed.

Lemma sublist_opt_app {A} (l0 l k : list A) (x : A) :
  l0 = [] ∨ l0 = [x] → l `sublist_of` k → l0 ++ l `sublist_of` x :: k.
Proof. intros [->| ->] H; simpl; [by apply sublist_cons|by apply sublist_skip]. Qed.

Lemma sublist_opt_one {A} (l0 : list A) (x : A) :
  l0 = [] ∨ l0 = [x] → l0 `sublist_of` [x].
Proof. intros [->| ->]; [apply sublist_nil_l|done]. Qed.

Ltac opt_sublist :=
  repeat (apply sublist_opt_app; [repeat case_match; auto|]);
  try (apply sublist_opt_one; repeat case_match; auto).

Lemma line_fields_codes_NoDup idx : NoDup (line_error idx <$> line_fields).
Proof.
  apply NoDup_fmap_2_strong.
  - intros f g Hf Hg Heq. by apply line_error_inj in Heq as [_ ?].
  - apply (bool_decide_unpack _). by vm_compute.
Qed.

Lemma line_item_errors_NoDup idx item : NoDup (line_item_errors idx item).
Proof.
  apply (sublist_NoDup _ (line_error idx <$> line_fields)).
  - apply line_fields_codes_NoDup.
  - unfold line_item_errors; simpl. opt_sublist.
Qed.

Lemma line_items_errors_NoDup idx items : NoDup (line_items_errors idx items).
Proof.
  revert idx. induction items as [|item rest IH]; intros idx; simpl.
  - apply NoDup_nil_2.
  - apply NoDup_app. split; [apply line_item_errors_NoDup|]. split; [|apply IH].
    intros code H1 H2.
    apply line_item_errors_elem in H1 as (f & Hf & ->).
    apply line_items_errors_elem in H2 as (i & g & Hi & Hg & Heq).
    apply line_error_inj in Heq as [-> _]; [lia|done..].
Qed.

Lemma line_items_errors_line code idx items :
  code ∈ line_items_errors idx items → is_line_code code = true.
Proof.
  intros H. apply line_items_errors_elem in H as (i & f & _ & _ & ->).
  apply line_error_prefix.
Qed.

(** ** The error list of one record *)

Lemma completeness_sublist inv :
  _check_completeness inv `sublist_of`
    ["missing_field: invoice_number"; "missing_field: invoice_date";
     "missing_field: seller_name"; "missing_field: buyer_name"].
Proof. unfold _check_completeness. opt_sublist. Qed.

Lemma business_rules_sublist inv :
  _check_business_rules inv `sublist_of`
    ["business_rule_failed: line_items_net_mismatch";
     "business_rule_failed: totals_mismatch";
     "business_rule_failed: due_before_invoice_date"].
Proof. unfold _check_business_rules. opt_sublist. Qed.

Lemma format_split inv :
  ∃ fixed,
    _check_format_and_ranges inv = fixed ++ line_items_errors 0 (line_items inv)
    ∧ fixed `sublist_of`
        ["format_error: invoice_date_out_of_range"; "format_error: due_date_out_of_range";
         "format_error: currency_invalid"; "format_error: net_total_negative";
         "format_error: tax_amount_negative"; "format_error: gross_total_negative"].
Proof.
  unfold _check_format_and_ranges. eexists. split.
  - rewrite !app_assoc. reflexivity.
  - rewrite <- !app_assoc. opt_sublist.
Qed.

Lemma invoice_errors_split inv :
  ∃ fixed,
    invoice_errors inv ≡ₚ fixed ++ line_items_errors 0 (line_items inv)
    ∧ fixed `sublist_of` fixed_codes.
Proof.
  destruct (format_split inv) as (B & HB & HsubB).
  exists (_check_completeness inv ++ B ++ _check_business_rules inv). split.
  - unfold invoice_errors. rewrite HB, <- !app_assoc.
    do 2 f_equiv. apply Permutation_app_comm.
  - apply (sublist_app _ [_; _; _; _]); [apply completeness_sublist|].
    apply (sublist_app _ [_; _; _; _; _; _]); [done|apply business_rules_sublist].
Qed.

Lemma invoice_errors_NoDup inv : NoDup (invoice_errors inv).
Proof.
  destruct (invoice_errors_split inv) as (F & -> & Hsub).
  apply NoDup_app. split; [|split; [|apply line_items_errors_NoDup]].
  - eapply sublist_NoDup; [|done]. exact (NoDup_cons_1_2 _ _ fixed_codes_NoDup).
  - intros code HF HL. apply line_items_errors_line in HL.
    rewrite fixed_codes_not_line in HL; [done|].
    apply elem_of_cons. right. by eapply elem_of_sublist.
Qed.

Lemma duplicate_error_fresh inv : duplicate_error ∉ invoice_errors inv.
Proof.
  destruct (invoice_errors_split inv) as (F & -> & Hsub).
  intros [H|H]%elem_of_app.
  - apply (NoDup_cons_1_1 _ _ fixed_codes_NoDup). by eapply elem_of_sublist.
  - by apply line_items_errors_line in H.
Qed.

(** ** The error counter *)

Lemma cnt_pos_lookup c code : 0 < cnt c code → c !! code = Some (cnt c code).
Proof. unfold cnt. destruct (c !! code); simpl; [done|lia]. Qed.

Lemma cnt_counter_incr e c code :
  cnt (counter_incr e c) code = cnt c code + (if decide (e = code) then 1 else 0).
Proof.
  unfold cnt, counter_incr. case_decide as He.
  - subst. by rewrite lookup_insert_eq.
  - rewrite lookup_insert_ne by done. lia.
Qed.

Lemma occ_cons code e errs :
  occ code (e :: errs) = ((if decide (e = code) then 1 else 0) + occ code errs)%nat.
Proof. unfold occ. rewrite filter_cons. by case_decide. Qed.

Lemma occ_app code l k : occ code (l ++ k) = (occ code l + occ code k)%nat.
Proof. unfold occ. by rewrite filter_app, length_app. Qed.

Lemma cnt_count_errors errs c code :
  cnt (count_errors errs c) code = cnt c code + Z.of_nat (occ code errs).
Proof.
  revert c. induction errs as [|e errs IH]; intros c; simpl.
  - unfold occ; simpl. lia.
  - unfold count_errors in *; simpl. rewrite IH, cnt_counter_incr, occ_cons.
    case_decide; lia.
Qed.

Lemma total_occ_cons code r rs :
  total_occ code (r :: rs) = (occ code (errors r) + total_occ code rs)%nat.
Proof. reflexivity. Qed.

Lemma total_occ_app code rs rs' :
  total_occ code (rs ++ rs') = (total_occ code rs + total_occ code rs')%nat.
Proof.
  induction rs as [|r rs IH]; [done|].
  rewrite <- app_comm_cons, !total_occ_cons, IH. lia.
Qed.

Lemma occ_NoDup code errs :
  NoDup errs → occ code errs = if decide (code ∈ errs) then 1%nat else 0%nat.
Proof.
  induction 1 as [|e errs Hnotin Hnd IH].
  - by rewrite decide_False by apply not_elem_of_nil.
  - rewrite occ_cons, IH. destruct (decide (e = code)) as [->|Hne].
    + rewrite decide_False by done. by rewrite decide_True by apply list_elem_of_here.
    + destruct (decide (code ∈ errs)) as [Hin|Hout].
      * by rewrite decide_True by by apply list_elem_of_further.
      * rewrite decide_False; [done|]. intros [?|?]%elem_of_cons; congruence.
Qed.

Lemma total_occ_results_with code rs :
  Forall (λ r, NoDup (errors r)) rs → total_occ code rs = results_with code rs.
Proof.
  unfold results_with. induction 1 as [|r rs Hr Hrs IH]; [done|].
  rewrite total_occ_cons, IH, filter_cons, occ_NoDup by done.
  by case_decide.
Qed.

(** ** The two loops of [validate_invoices] *)

Lemma first_pass_fold invoices rs c :
  (fold_left first_pass_step invoices (rs, c)).1 = rs ++ (first_pass_result <$> invoices)
  ∧ ∀ code,
      cnt (fold_left first_pass_step invoices (rs, c)).2 code
      = cnt c code + Z.of_nat (total_occ code (first_pass_result <$> invoices)).
Proof.
  revert rs c. induction invoices as [|inv rest IH]; intros rs c.
  - simpl. split; [by rewrite app_nil_r|]. intros code. unfold total_occ; simpl. lia.
  - destruct (IH (rs ++ [first_pass_result inv]) (count_errors (invoice_errors inv) c))
      as [Hres Hcnt].
    rewrite fmap_cons. cbn [fold_left]. unfold first_pass_step at 2 4.
    cbn [fst snd]. split.
    + by rewrite Hres, <- app_assoc.
    + intros code. rewrite Hcnt, cnt_count_errors, total_occ_cons.
      cbn [errors first_pass_result]. lia.
Qed.

Lemma second_pass_fold invoices st prev :
  seen_keys st prev →
  let st' := fold_left second_pass_step (zip (first_pass_result <$> invoices) invoices) st in
  visited st' = visited st ++ flag_duplicates prev invoices
  ∧ ∀ code,
      cnt (counter st') code + Z.of_nat (total_occ code (first_pass_result <$> invoices))
      = cnt (counter st) code + Z.of_nat (total_occ code (flag_duplicates prev invoices)).
Proof.
  revert st prev. unfold seen_keys.
  induction invoices as [|inv rest IH]; intros st prev Hseen.
  - simpl. split; [by rewrite app_nil_r|done].
  - rewrite fmap_cons. cbn [zip_with fold_left flag_duplicates].
    unfold second_pass_step at 2 4. cbn [fst snd].
    destruct (seen st !! dup_key inv) as [first|] eqn:Hlook.
    + assert (Hin : dup_key inv ∈ prev) by (apply Hseen; eauto).
      rewrite decide_True by done.
      edestruct (IH (mkDupState (visited st ++ [mark_duplicate (first_pass_result inv)])
                      (seen st) (counter_incr duplicate_error (counter st)))
                    (prev ++ [dup_key inv])) as [Hres Hcnt].
      { intros k; simpl. rewrite elem_of_app, list_elem_of_singleton, Hseen.
        split; [tauto|]. intros [?| ->]; done. }
      cbn [visited counter] in Hres, Hcnt. split; [by rewrite Hres, <- app_assoc|].
      intros code. specialize (Hcnt code).
      rewrite cnt_counter_incr in Hcnt. rewrite !total_occ_cons.
      cbn [errors mark_duplicate]. rewrite occ_app, (occ_cons code duplicate_error []).
      change (occ code []) with 0%nat. case_decide; lia.
    + assert (Hout : dup_key inv ∉ prev).
      { intros Hin%Hseen. rewrite Hlook in Hin. by destruct Hin. }
      rewrite decide_False by done.
      edestruct (IH (mkDupState (visited st ++ [first_pass_result inv])
                      (<[dup_key inv := invoice_number inv]> (seen st)) (counter st))
                    (prev ++ [dup_key inv])) as [Hres Hcnt].
      { intros k; simpl. rewrite elem_of_app, list_elem_of_singleton, <- Hseen.
        destruct (decide (dup_key inv = k)) as [->|Hne].
        - rewrite lookup_insert_eq. split; eauto.
        - rewrite lookup_insert_ne by done. split; [tauto|]. intros [?|?]; congruence. }
      cbn [visited counter] in Hres, Hcnt. split; [by rewrite Hres, <- app_assoc|].
      intros code. specialize (Hcnt code). rewrite !total_occ_cons. lia.
Qed.

(** The results and the summary of [validate_invoices], in closed form. *)
Lemma validate_invoices_unfold invoices :
  let results := flag_duplicates [] invoices in
  ∃ c, validate_invoices invoices
       = (results,
          mkSummary (Z.of_nat (length results))
                    (Z.of_nat (length results) - count_invalid results)
                    (count_invalid results) c)
       ∧ ∀ code, cnt c code = Z.of_nat (total_occ code results).
Proof.
  unfold validate_invoices, first_pass.
  destruct (first_pass_fold invoices [] ∅) as [Hres0 Hcnt0].
  destruct (fold_left first_pass_step invoices ([], ∅)) as [results0 counter0].
  simpl in Hres0, Hcnt0. subst results0.
  destruct (second_pass_fold invoices (mkDupState [] ∅ counter0) [])
    as [Hres Hcnt].
  { intros k; simpl. rewrite lookup_empty, elem_of_nil. split; [by intros []|done]. }
  simpl in Hres, Hcnt. unfold second_pass. rewrite Hres.
  eexists. split; [reflexivity|].
  intros code. specialize (Hcnt code). specialize (Hcnt0 code).
  unfold cnt at 2 in Hcnt0. rewrite lookup_empty in Hcnt0. simpl in Hcnt0. lia.
Qed.

Lemma validate_invoices_results invoices :
  (validate_invoices invoices).1 = flag_duplicates [] invoices.
Proof. by destruct (validate_invoices_unfold invoices) as (c & -> & _). Qed.

Lemma flag_duplicates_length prev invoices :
  length (flag_duplicates prev invoices) = length invoices.
Proof. revert prev. induction invoices; intros prev; simpl; [done|]. by rewrite IHinvoices. Qed.

Lemma flag_duplicates_lookup prev invoices i inv :
  invoices !! i = Some inv →
  flag_duplicates prev invoices !! i
  = Some (if decide (dup_key inv ∈ prev ++ (dup_key <$> take i invoices))
          then mark_duplicate (first_pass_result inv) else first_pass_result inv).
Proof.
  revert prev i. induction invoices as [|x rest IH]; intros prev [|i] H; simplify_eq/=.
  - by rewrite app_nil_r.
  - rewrite (IH _ _ H). by rewrite <- app_assoc.
Qed.

Lemma flag_duplicates_Forall (P : InvoiceValidationResult → Prop) prev invoices :
  (∀ inv, P (first_pass_result inv)) →
  (∀ inv, P (mark_duplicate (first_pass_result inv))) →
  Forall P (flag_duplicates prev invoices).
Proof.
  intros H1 H2. revert prev. induction invoices as [|inv rest IH]; intros prev; simpl.
  - constructor.
  - constructor; [by case_decide|apply IH].
Qed.

Lemma valid_invalid_length (rs : list InvoiceValidationResult) :
  (length (filter (λ r, is_valid r = true) rs)
   + length (filter (λ r, is_valid r = false) rs) = length rs)%nat.
Proof.
  induction rs as [|r rs IH]; [done|].
  rewrite !filter_cons. destruct (is_valid r); simpl; lia.
Qed.

(** ** Duplicate detection, validity and the summary *)

(** C2. In [validate_invoices], the record at position [i] keeps the result
    of its per-record passes when no earlier record has its duplicate key
    (lower-cased seller name, invoice number, invoice date); when an earlier
    record has the same key, its result is the per-record one with
    ['anomaly: duplicate_invoice'] appended to the errors and [is_valid]
    false, whatever the per-record errors were. *)
Theorem duplicate_pass_marks_later_records (invoices : list Invoice) (i : nat) (inv : Invoice) :
  invoices !! i = Some inv →
  let results := (validate_invoices invoices).1 in
  (dup_key inv ∉ dup_key <$> take i invoices →
     results !! i = Some (first_pass_result inv))
  ∧ (dup_key inv ∈ dup_key <$> take i invoices →
     ∃ res, results !! i = Some res
            ∧ invoice_id res = invoice_number inv
            ∧ errors res = invoice_errors inv ++ ["anomaly: duplicate_invoice"]
            ∧ is_valid res = false).
Proof.
  intros Hi results. subst results.
  rewrite validate_invoices_results, (flag_duplicates_lookup _ _ _ _ Hi), app_nil_l.
  split; intros Hkey.
  - by rewrite decide_False.
  - rewrite decide_True by done. eexists. split; [reflexivity|]. done.
Qed.

Lemma duplicate_pass_marks_later_records_witness :
  (validate_invoices [acme_invoice "Acme" "INV-2" "INR" 100; acme_invoice "acme" "INV-2" "USD" 7]).1
    !! 1%nat
  = Some (mkResult "INV-2" false ["anomaly: duplicate_invoice"]).
Proof.
  destruct (duplicate_pass_marks_later_records
              [acme_invoice "Acme" "INV-2" "INR" 100; acme_invoice "acme" "INV-2" "USD" 7]
              1 (acme_invoice "acme" "INV-2" "USD" 7) eq_refl) as [_ Hdup].
  destruct Hdup as (res & Hlook & Hid & Herr & Hvalid).
  { vm_compute. apply list_elem_of_here. }
  rewrite Hlook. destruct res as [id v errs]. simpl in *. by subst.
Defined.

(** C3. After both passes every result is valid exactly when its error list
    is empty. *)
Theorem valid_iff_no_errors (invoices : list Invoice) :
  Forall (λ r, is_valid r = true ↔ errors r = []) (validate_invoices invoices).1.
Proof.
  rewrite validate_invoices_results. apply flag_duplicates_Forall; intros inv; simpl.
  - destruct (invoice_errors inv); simpl; split; congruence.
  - split; [done|]. intros H. by destruct (invoice_errors inv).
Qed.

(** C4. In the summary, valid + invalid = total; total is the number of input
    records, invalid the number of results with [is_valid] false and valid the
    number with [is_valid] true. *)
Theorem summary_counts (invoices : list Invoice) :
  let results := (validate_invoices invoices).1 in
  let summary := (validate_invoices invoices).2 in
  valid_invoices summary + invalid_invoices summary = total_invoices summary
  ∧ total_invoices summary = Z.of_nat (length invoices)
  ∧ invalid_invoices summary = Z.of_nat (length (filter (λ r, is_valid r = false) results))
  ∧ valid_invoices summary = Z.of_nat (length (filter (λ r, is_valid r = true) results)).
Proof.
  destruct (validate_invoices_unfold invoices) as (c & -> & _). simpl.
  unfold count_invalid.
  pose proof (valid_invalid_length (flag_duplicates [] invoices)).
  rewrite flag_duplicates_length in *. lia.
Qed.

(** C5. For every code that occurs in some returned result, the summary's
    [error_counts] holds for it the number of results whose error list
    contains the code. *)
Theorem error_counts_per_result (invoices : list Invoice) (code : string) :
  let results := (validate_invoices invoices).1 in
  let summary := (validate_invoices invoices).2 in
  (∃ r, r ∈ results ∧ code ∈ errors r) →
  error_counts summary !! code = Some (Z.of_nat (results_with code results)).
Proof.
  destruct (validate_invoices_unfold invoices) as (c & -> & Hcnt). simpl.
  intros (r & Hr & Hcode).
  assert (Hnd : Forall (λ r, NoDup (errors r)) (flag_duplicates [] invoices)).
  { apply flag_duplicates_Forall; intros inv; simpl; [apply invoice_errors_NoDup|].
    apply NoDup_app. split; [apply invoice_errors_NoDup|].
    split; [|apply NoDup_singleton].
    intros x Hx ->%list_elem_of_singleton. by apply duplicate_error_fresh in Hx. }
  specialize (Hcnt code). rewrite total_occ_results_with in Hcnt by done.
  rewrite <- Hcnt. apply cnt_pos_lookup. rewrite Hcnt.
  assert (0 < results_with code (flag_duplicates [] invoices))%nat; [|lia].
  unfold results_with.
  assert (Hin : r ∈ filter (λ r, code ∈ errors r) (flag_duplicates [] invoices))
    by by apply list_elem_of_filter.
  destruct (filter _ _); [by apply elem_of_nil in Hin|simpl; lia].
Qed.

Lemma error_counts_per_result_witness :
  error_counts
    (validate_invoices [acme_invoice "Acme" "INV-2" "XYZ" 100;
                        acme_invoice "acme" "INV-2" "XYZ" 7;
                        acme_invoice "Other" "INV-3" "EUR" 1]).2
    !! "format_error: currency_invalid" = Some 2.
Proof.
  apply (error_counts_per_result
           [acme_invoice "Acme" "INV-2" "XYZ" 100;
            acme_invoice "acme" "INV-2" "XYZ" 7;
            acme_invoice "Other" "INV-3" "EUR" 1]
           "format_error: currency_invalid").
  exists (mkResult "INV-2" false ["format_error: currency_invalid"]).
  split; [vm_compute|]; apply list_elem_of_here.
Defined.

(** ** What the format pass and the business-rule pass emit *)

Lemma elem_of_cond (b : bool) (x y : string) :
  x ∈ (if b then [y] else []) ↔ x = y ∧ b = true.
Proof.
  destruct b.
  - rewrite list_elem_of_singleton. split; [by intros ->|by intros [-> _]].
  - rewrite elem_of_nil. split; [done|by intros [_ ?]].
Qed.

Lemma elem_of_cond_option {A} (o : option A) (P : A → bool) (x y : string) :
  x ∈ match o with Some d => if P d then [y] else [] | None => [] end
  ↔ x = y ∧ ∃ d, o = Some d ∧ P d = true.
Proof.
  destruct o as [d|].
  - rewrite elem_of_cond. split.
    + intros [-> ?]. eauto.
    + intros [-> (d' & [= <-] & ?)]. done.
  - rewrite elem_of_nil. split; [done|]. by intros [_ (d & ? & _)].
Qed.

Lemma elem_of_cond_decide (P : Prop) `{!Decision P} (x y : string) :
  x ∈ (if decide P then [] else [y]) ↔ x = y ∧ ¬ P.
Proof.
  destruct (decide P).
  - rewrite elem_of_nil. split; [done|]. by intros [_ ?].
  - rewrite list_elem_of_singleton. split; [by intros ->|by intros [-> _]].
Qed.

Lemma format_elem code inv :
  code ∈ _check_format_and_ranges inv ↔
    (code = "format_error: invoice_date_out_of_range"
       ∧ in_date_range (invoice_date inv) = false)
    ∨ (code = "format_error: due_date_out_of_range"
       ∧ ∃ d, due_date inv = Some d ∧ in_date_range d = false)
    ∨ (code = "format_error: currency_invalid"
       ∧ PyStr.upper (currency inv) ∉ allowed_currencies)
    ∨ (code = "format_error: net_total_negative" ∧ flt_neg (net_total inv) = true)
    ∨ (code = "format_error: tax_amount_negative" ∧ flt_neg (tax_amount inv) = true)
    ∨ (code = "format_error: gross_total_negative" ∧ flt_neg (gross_total inv) = true)
    ∨ code ∈ line_items_errors 0 (line_items inv).
Proof.
  unfold _check_format_and_ranges.
  rewrite !elem_of_app, !elem_of_cond, negb_true_iff, elem_of_cond_decide.
  rewrite (elem_of_cond_option (due_date inv) (λ d, negb (in_date_range d))).
  by setoid_rewrite negb_true_iff.
Qed.

Lemma business_rules_elem code inv :
  code ∈ _check_business_rules inv ↔
    (code = "business_rule_failed: line_items_net_mismatch"
       ∧ line_items inv ≠ []
       ∧ exceeds_tolerance (sum_lines inv) (net_total inv) = true)
    ∨ (code = "business_rule_failed: totals_mismatch"
       ∧ exceeds_tolerance (PrimFloat.add (net_total inv) (tax_amount inv))
                           (gross_total inv) = true)
    ∨ (code = "business_rule_failed: due_before_invoice_date"
       ∧ ∃ d, due_date inv = Some d ∧ date_ltb d (invoice_date inv) = true).
Proof.
  unfold _check_business_rules.
  rewrite !elem_of_app, elem_of_cond.
  rewrite (elem_of_cond_option (due_date inv) (λ d, date_ltb d (invoice_date inv))).
  apply or_iff_compat_r.
  destruct (line_items inv) as [|item rest].
  - rewrite elem_of_nil. split; [done|]. by intros (_ & ? & _).
  - rewrite elem_of_cond. split; [by intros [-> ?]|by intros (-> & _ & ?)].
Qed.

(** ** The date window of the format pass *)

Lemma date_leb_iff a b :
  date_leb a b = true ↔
    year a < year b
    ∨ (year a = year b ∧ (month a < month b ∨ (month a = month b ∧ day a ≤ day b))).
Proof.
  unfold date_leb, date_cmp.
  destruct (Z.compare_spec (year a) (year b)), (Z.compare_spec (month a) (month b)),
    (Z.compare_spec (day a) (day b)); split; intros ?; first [done|lia].
Qed.

Lemma in_date_range_calendar d :
  calendar_date d → in_date_range d = false ↔ outside_window d.
Proof.
  unfold calendar_date, outside_window, in_date_range. intros [Hm Hd].
  rewrite andb_false_iff, <- !not_true_iff_false, !date_leb_iff. simpl. lia.
Qed.

Lemma not_line_code_not_in_items code idx items :
  is_line_code code = false → code ∉ line_items_errors idx items.
Proof. intros Hc Hin%line_items_errors_line. congruence. Qed.

(** C6, as stated, fails: 15 June 2100 lies within year 2100 and the format
    pass emits ['format_error: invoice_date_out_of_range'] for it. *)
Lemma date_window_year_2100_counterexample :
  year (invoice_date (dated_invoice (Date 2100 6 15) None)) = 2100
  ∧ "format_error: invoice_date_out_of_range"
      ∈ _check_format_and_ranges (dated_invoice (Date 2100 6 15) None).
Proof. split; [reflexivity|]. vm_compute. apply list_elem_of_here. Qed.

(** C6 (amended). For calendar dates, the format pass emits
    ['format_error: invoice_date_out_of_range'] exactly when [invoice_date]
    is before 1 January 2000 or after 1 January 2100, and
    ['format_error: due_date_out_of_range'] exactly when a present [due_date]
    is: the window ends on the first day of year 2100, which is in range. *)
Theorem date_window_ends_on_first_day_of_2100 (inv : Invoice) :
  calendar_date (invoice_date inv) →
  (∀ d, due_date inv = Some d → calendar_date d) →
  ("format_error: invoice_date_out_of_range" ∈ _check_format_and_ranges inv
     ↔ outside_window (invoice_date inv))
  ∧ ("format_error: due_date_out_of_range" ∈ _check_format_and_ranges inv
     ↔ ∃ d, due_date inv = Some d ∧ outside_window d).
Proof.
  intros Hinv Hdue. rewrite !format_elem. split.
  - rewrite <- (in_date_range_calendar _ Hinv). split; [|by auto].
    intros [[_ H]|[[? _]|[[? _]|[[? _]|[[? _]|[[? _]|H]]]]]]; try done.
    by apply not_line_code_not_in_items in H.
  - split.
    + intros [[? _]|[[_ H]|[[? _]|[[? _]|[[? _]|[[? _]|H]]]]]]; try done.
      * destruct H as (d & Hd & Hr). exists d. split; [done|].
        by apply in_date_range_calendar; [apply Hdue|].
      * by apply not_line_code_not_in_items in H.
    + intros (d & Hd & Hout). right. left. split; [done|]. exists d. split; [done|].
      by apply in_date_range_calendar; [apply Hdue|].
Qed.

Lemma date_window_ends_on_first_day_of_2100_witness :
  ("format_error: invoice_date_out_of_range"
     ∉ _check_format_and_ranges (dated_invoice (Date 2100 1 1) (Some (Date 2100 1 2))))
  ∧ ("format_error: due_date_out_of_range"
     ∈ _check_format_and_ranges (dated_invoice (Date 2100 1 1) (Some (Date 2100 1 2)))).
Proof.
  destruct (date_window_ends_on_first_day_of_2100
              (dated_invoice (Date 2100 1 1) (Some (Date 2100 1 2)))) as [Hinv Hdue].
  - unfold calendar_date; simpl; lia.
  - intros d [= <-]. unfold calendar_date; simpl; lia.
  - split.
    + rewrite Hinv. unfold outside_window; simpl. lia.
    + apply Hdue. exists (Date 2100 1 2). split; [done|].
      unfold outside_window; simpl. lia.
Defined.

(** ** Order sensitivity of the duplicate pass *)

(** C7, as stated, fails: with the same key, a first record that passes its
    own checks and a second that does not, the invalid count is 1 in one
    order and 2 in the other. *)
Lemma swap_changes_invalid_count_counterexample :
  dup_key (acme_invoice "Acme" "INV-2" "INR" 100) = dup_key (acme_invoice "acme" "INV-2" "XYZ" 7)
  ∧ invalid_invoices
      (validate_invoices [acme_invoice "Acme" "INV-2" "INR" 100;
                          acme_invoice "acme" "INV-2" "XYZ" 7]).2 = 1
  ∧ invalid_invoices
      (validate_invoices [acme_invoice "acme" "INV-2" "XYZ" 7;
                          acme_invoice "Acme" "INV-2" "INR" 100]).2 = 2.
Proof. by vm_compute. Qed.

(** C7 (amended). For two records with the same duplicate key, in either
    input order the second record is the one that receives
    ['anomaly: duplicate_invoice'] and the first keeps its per-record result,
    which never holds that code; the invalid count of an order is 1 when its
    first record passes its per-record checks and 2 when it does not, so the
    two orders give the same invalid count exactly when both records have the
    same per-record validity. *)
Theorem swap_moves_duplicate_flag (a b : Invoice) :
  dup_key a = dup_key b →
  (validate_invoices [a; b]).1 = [first_pass_result a; mark_duplicate (first_pass_result b)]
  ∧ (validate_invoices [b; a]).1 = [first_pass_result b; mark_duplicate (first_pass_result a)]
  ∧ ("anomaly: duplicate_invoice" ∉ errors (first_pass_result a))
  ∧ ("anomaly: duplicate_invoice" ∉ errors (first_pass_result b))
  ∧ ("anomaly: duplicate_invoice" ∈ errors (mark_duplicate (first_pass_result a)))
  ∧ ("anomaly: duplicate_invoice" ∈ errors (mark_duplicate (first_pass_result b)))
  ∧ invalid_invoices (validate_invoices [a; b]).2
    = (if is_valid (first_pass_result a) then 1 else 2)
  ∧ invalid_invoices (validate_invoices [b; a]).2
    = (if is_valid (first_pass_result b) then 1 else 2)
  ∧ (invalid_invoices (validate_invoices [a; b]).2
     = invalid_invoices (validate_invoices [b; a]).2
     ↔ is_valid (first_pass_result a) = is_valid (first_pass_result b)).
Proof.
  intros Hkey.
  assert (Hab : flag_duplicates [] [a; b]
                = [first_pass_result a; mark_duplicate (first_pass_result b)]).
  { simpl. destruct (decide (dup_key a ∈ [])) as [H|_]; [by apply elem_of_nil in H|].
    destruct (decide (dup_key b ∈ [dup_key a])) as [_|H]; [done|].
    exfalso. apply H. rewrite Hkey. apply list_elem_of_here. }
  assert (Hba : flag_duplicates [] [b; a]
                = [first_pass_result b; mark_duplicate (first_pass_result a)]).
  { simpl. destruct (decide (dup_key b ∈ [])) as [H|_]; [by apply elem_of_nil in H|].
    destruct (decide (dup_key a ∈ [dup_key b])) as [_|H]; [done|].
    exfalso. apply H. rewrite Hkey. apply list_elem_of_here. }
  destruct (validate_invoices_unfold [a; b]) as (c1 & -> & _).
  destruct (validate_invoices_unfold [b; a]) as (c2 & -> & _).
  cbn zeta. rewrite Hab, Hba. cbn [fst snd invalid_invoices].
  unfold count_invalid. rewrite !filter_cons, !filter_nil.
  cbn [is_valid mark_duplicate first_pass_result errors].
  repeat split; try apply duplicate_error_fresh;
    try (apply elem_of_app; right; apply list_elem_of_here);
    destruct (Nat.eqb (length (invoice_errors a)) 0),
             (Nat.eqb (length (invoice_errors b)) 0); simpl; done.
Qed.

Lemma swap_moves_duplicate_flag_witness :
  (validate_invoices [acme_invoice "Acme" "INV-2" "INR" 100;
                      acme_invoice "acme" "INV-2" "USD" 7]).1
  = [mkResult "INV-2" true []; mkResult "INV-2" false ["anomaly: duplicate_invoice"]].
Proof.
  destruct (swap_moves_duplicate_flag (acme_invoice "Acme" "INV-2" "INR" 100)
              (acme_invoice "acme" "INV-2" "USD" 7) eq_refl) as [-> _].
  reflexivity.
Defined.

(** ** The tolerance of the business rules *)

(** C9, as stated, fails in binary64: with [net_total] 1.0 and one line total
    of 1.05 the sum of the line totals equals [net_total + 0.05], and the
    difference the code computes, 0.050000000000000044, exceeds the tolerance,
    so the error is emitted. *)
Lemma tolerance_boundary_counterexample :
  sum_lines (itemised_invoice 1 [1.05%float])
  = PrimFloat.add (net_total (itemised_invoice 1 [1.05%float])) 0.05%float
  ∧ ("business_rule_failed: line_items_net_mismatch"
     ∈ _check_business_rules (itemised_invoice 1 [1.05%float])).
Proof. split; [reflexivity|]. vm_compute. apply list_elem_of_here. Qed.

(** C9 (amended). For a record with at least one line item, the business-rule
    pass emits ['business_rule_failed: line_items_net_mismatch'] exactly when
    the absolute value of the binary64 difference between the sum of the line
    totals and [net_total] is greater than 0.05; in particular a computed
    difference of exactly 0.05 does not trigger the error and a computed
    difference of 0.0501 does. *)
Theorem line_items_net_mismatch_iff (inv : Invoice) :
  line_items inv ≠ [] →
  ("business_rule_failed: line_items_net_mismatch" ∈ _check_business_rules inv
     ↔ PrimFloat.ltb 0.05%float
         (PrimFloat.abs (PrimFloat.sub (sum_lines inv) (net_total inv))) = true)
  ∧ (PrimFloat.sub (sum_lines inv) (net_total inv) = 0.05%float →
     "business_rule_failed: line_items_net_mismatch" ∉ _check_business_rules inv)
  ∧ (PrimFloat.sub (sum_lines inv) (net_total inv) = 0.0501%float →
     "business_rule_failed: line_items_net_mismatch" ∈ _check_business_rules inv).
Proof.
  intros Hitems.
  assert (Hiff : "business_rule_failed: line_items_net_mismatch" ∈ _check_business_rules inv
                 ↔ exceeds_tolerance (sum_lines inv) (net_total inv) = true).
  { rewrite business_rules_elem. split; [|by auto].
    intros [(_ & _ & H)|[[? _]|[? _]]]; done. }
  split; [exact Hiff|]. rewrite Hiff. unfold exceeds_tolerance, tolerance.
  split; intros ->; by vm_compute.
Qed.

Lemma line_items_net_mismatch_iff_witness :
  ("business_rule_failed: line_items_net_mismatch"
     ∉ _check_business_rules (itemised_invoice 0 [0.05%float]))
  ∧ ("business_rule_failed: line_items_net_mismatch"
     ∈ _check_business_rules (itemised_invoice 0 [0.0501%float])).
Proof.
  split.
  - by apply (line_items_net_mismatch_iff (itemised_invoice 0 [0.05%float])).
  - by apply (line_items_net_mismatch_iff (itemised_invoice 0 [0.0501%float])).
Defined.

(** ** Line items of records built through the data model *)

Lemma validate_line_total_id v qty price : validate_line_total v qty price = v.
Proof. unfold validate_line_total. by repeat case_match. Qed.

Lemma validate_line_items_ge0 raw items :
  validate_line_items raw = Ok items →
  Forall (λ li, ge0 (quantity li) = true ∧ ge0 (unit_price li) = true
                ∧ ge0 (line_total li) = true) items.
Proof.
  revert items. induction raw as [|li rest IH]; intros items H; simpl in H.
  - injection H as <-. constructor.
  - unfold LineItem_new, mbind, result_mbind in H.
    rewrite validate_line_total_id in H.
    destruct (ge0 (quantity li)) eqn:Hq; [|done].
    destruct (ge0 (unit_price li)) eqn:Hu; [|done].
    destruct (ge0 (line_total li)) eqn:Ht; [|done].
    simpl in H. destruct (validate_line_items rest) as [rest'|e]; [|done].
    simpl in H. injection H as <-. constructor; [done|by apply IH].
Qed.

(** Line items that the constructor built pass the validation of [Invoice]
    unchanged. *)
Lemma validate_line_items_constructed items :
  Forall (λ li, ∃ d q u t, LineItem_new d q u t = Ok li) items →
  validate_line_items items = Ok items.
Proof.
  induction 1 as [|li rest (d & q & u & t & Hnew) _ IH]; [done|].
  simpl. rewrite IH. unfold LineItem_new in *. rewrite validate_line_total_id in *.
  destruct (ge0 q) eqn:Hq; [|done]. destruct (ge0 u) eqn:Hu; [|done].
  destruct (ge0 t) eqn:Ht; [|done]. simpl in Hnew. injection Hnew as <-. simpl.
  by rewrite Hq, Hu, Ht.
Qed.

Lemma line_items_errors_ge0 idx items :
  Forall (λ li, ge0 (quantity li) = true ∧ ge0 (unit_price li) = true
                ∧ ge0 (line_total li) = true) items →
  line_items_errors idx items = [].
Proof.
  intros H. revert idx. induction H as [|li rest (Hq & Hu & Ht) _ IH]; intros idx; [done|].
  simpl. unfold line_item_errors.
  by rewrite (ge0_not_negative _ Hq), (ge0_not_negative _ Hu), (ge0_not_negative _ Ht), IH.
Qed.

(** C10. For every record built by the data model's constructor, the loop over
    the line items in the format pass emits nothing, and no
    ['format_error: line_<i>_quantity_negative'],
    ['format_error: line_<i>_unit_price_negative'] or
    ['format_error: line_<i>_line_total_negative'] is among the errors of the
    format pass. *)
Theorem constructed_invoice_has_no_negative_line_error (raw inv : Invoice) (idx : nat) :
  Invoice_new raw = Ok inv →
  line_items_errors 0 (line_items inv) = []
  ∧ ("format_error: line_" +:+ PyStr.str_nat idx +:+ "_quantity_negative"
       ∉ _check_format_and_ranges inv)
  ∧ ("format_error: line_" +:+ PyStr.str_nat idx +:+ "_unit_price_negative"
       ∉ _check_format_and_ranges inv)
  ∧ ("format_error: line_" +:+ PyStr.str_nat idx +:+ "_line_total_negative"
       ∉ _check_format_and_ranges inv).
Proof.
  intros Hnew. unfold Invoice_new in Hnew.
  destruct (validate_line_items (line_items raw)) as [items|e] eqn:Hitems; [|done].
  injection Hnew as <-. cbn [line_items].
  pose proof (line_items_errors_ge0 0 _ (validate_line_items_ge0 _ _ Hitems)) as Hnil.
  split; [done|].
  assert (Hfield : ∀ f, line_error idx f ∉ _check_format_and_ranges
                          (mkInvoice (invoice_number raw) (invoice_date raw) (due_date raw)
                             (seller_name raw) (seller_address raw) (seller_tax_id raw)
                             (buyer_name raw) (buyer_address raw) (buyer_tax_id raw)
                             (validate_currency (currency raw))
                             (net_total raw) (tax_amount raw) (gross_total raw)
                             (payment_terms raw) items)).
  { intros f. rewrite format_elem. cbn [line_items]. rewrite Hnil.
    intros [[H _]|[[H _]|[[H _]|[[H _]|[[H _]|[[H _]|H]]]]]];
      try (by apply elem_of_nil in H);
      apply (f_equal is_line_code) in H; by rewrite line_error_prefix in H. }
  split; [apply (Hfield "quantity")|].
  split; [apply (Hfield "unit_price")|apply (Hfield "line_total")].
Qed.

Lemma constructed_invoice_has_no_negative_line_error_witness :
  "format_error: line_0_quantity_negative"
    ∉ _check_format_and_ranges (itemised_invoice 10 [4%float; 6%float]).
Proof.
  apply (constructed_invoice_has_no_negative_line_error
           (itemised_invoice 10 [4%float; 6%float]) _ 0 eq_refl).
Defined.

(** ** Extraction *)

Import Extractor.

(** C1. [extract_invoice_number] reads the name [re], which [extractor.py]
    binds nowhere at module level, so it raises [NameError] on every text
    before it searches; [extract_invoice_from_pdf] calls it on every path, so
    for every document the pipeline ends in an exception and returns no
    record. *)
Theorem extraction_always_raises (re_search : re_search_t) (strptime : strptime_t)
    (py_float : py_float_t) (today : date) (basename : string → string)
    (path : string) (pages : list (option string)) (text : string) :
  extract_invoice_number re_search text = Raise (NameError "re")
  ∧ raises (extract_invoice_from_pdf re_search strptime py_float today basename path pages).
Proof.
  split; [reflexivity|].
  unfold extract_invoice_from_pdf, raises.
  destruct (extract_dates _ _ _) as [inv_date due].
  destruct (extract_parties _ _) as [[[[[sn sa] st] bn] ba] bt].
  destruct (extract_totals _ _) as [[net tax] gross].
  unfold mbind, result_mbind.
  destruct (extract_line_items _ _) as [items|e]; simpl; eauto.
Qed.

(** C8. On a table whose item line reads [Widget   2   5.00   0.00], the last
    segment parses to 0.0 and the extracted [line_total] is quantity times
    unit price, 10.0: the fall-back is taken although the segment parsed. *)
Theorem zero_line_total_is_replaced (py_float : py_float_t) :
  py_float "2" = Some 2%float →
  py_float "5.00" = Some 5%float →
  py_float "0.00" = Some 0%float →
  extract_line_items py_float zero_total_text
  = Ok [mkLineItem "Widget" 2%float 5%float 10%float].
Proof.
  intros H2 H5 H0. vm_compute. rewrite H2. vm_compute. rewrite H5. vm_compute.
  rewrite H0. by vm_compute.
Qed.

(** A segment that parses to a negative number makes the [LineItem]
    constructor raise, and [extract_line_items] with it. *)
Lemma negative_quantity_raises :
  extract_line_items DecimalLiteral.decimal_float negative_quantity_text
  = Raise (ValidationError "LineItem" ["quantity"]).
Proof. by vm_compute. Qed.

Lemma zero_line_total_is_replaced_witness :
  extract_line_items DecimalLiteral.decimal_float zero_total_text
  = Ok [mkLineItem "Widget" 2%float 5%float 10%float].
Proof.
  apply (zero_line_total_is_replaced DecimalLiteral.decimal_float); by vm_compute.
Defined.

(** * Further properties *)

Import Coverage.

(** ** More on the results and the summary of [validate_invoices] *)

Lemma counter_incr_pos e c : counter_pos c → counter_pos (counter_incr e c).
Proof.
  intros Hc code v. unfold counter_incr.
  destruct (decide (e = code)) as [->|Hne].
  - rewrite lookup_insert_eq. intros [= <-].
    destruct (c !! code) as [w|] eqn:Hw; simpl; [|lia].
    specialize (Hc _ _ Hw). lia.
  - rewrite lookup_insert_ne by done. apply Hc.
Qed.

Lemma count_errors_pos errs c : counter_pos c → counter_pos (count_errors errs c).
Proof.
  revert c. induction errs as [|e errs IH]; intros c Hc; [done|].
  apply IH. by apply counter_incr_pos.
Qed.

Lemma first_pass_pos invoices rs c :
  counter_pos c → counter_pos (fold_left first_pass_step invoices (rs, c)).2.
Proof.
  revert rs c. induction invoices as [|inv rest IH]; intros rs c Hc; [done|].
  apply IH. by apply count_errors_pos.
Qed.

Lemma second_pass_pos pairs st :
  counter_pos (counter st) → counter_pos (counter (fold_left second_pass_step pairs st)).
Proof.
  revert st. induction pairs as [|p rest IH]; intros st Hc; [done|].
  apply IH. unfold second_pass_step.
  destruct (seen st !! dup_key p.2); [by apply counter_incr_pos|done].
Qed.

Lemma validate_invoices_counter_pos invoices :
  counter_pos (error_counts (validate_invoices invoices).2).
Proof.
  unfold validate_invoices, first_pass.
  pose proof (first_pass_pos invoices [] ∅) as H0.
  destruct (fold_left first_pass_step invoices ([], ∅)) as [results0 counter0].
  simpl. apply second_pass_pos. apply H0. intros code v. by rewrite lookup_empty.
Qed.

Lemma validate_invoices_cnt invoices code :
  cnt (error_counts (validate_invoices invoices).2) code
  = Z.of_nat (total_occ code (validate_invoices invoices).1).
Proof. destruct (validate_invoices_unfold invoices) as (c & -> & Hc). apply Hc. Qed.

Lemma results_NoDup invoices :
  Forall (λ r, NoDup (errors r)) (validate_invoices invoices).1.
Proof.
  rewrite validate_invoices_results.
  apply flag_duplicates_Forall; intros inv; simpl; [apply invoice_errors_NoDup|].
  apply NoDup_app. split; [apply invoice_errors_NoDup|].
  split; [|apply NoDup_singleton].
  intros x Hx ->%list_elem_of_singleton. by apply duplicate_error_fresh in Hx.
Qed.

(** The whole of [error_counts], key by key. *)
Lemma error_counts_lookup invoices code :
  error_counts (validate_invoices invoices).2 !! code
  = if decide (results_with code (validate_invoices invoices).1 = 0%nat) then None
    else Some (Z.of_nat (results_with code (validate_invoices invoices).1)).
Proof.
  pose proof (validate_invoices_cnt invoices code) as Hcnt.
  rewrite total_occ_results_with in Hcnt by apply results_NoDup.
  pose proof (validate_invoices_counter_pos invoices code) as Hpos.
  unfold cnt in Hcnt.
  destruct (error_counts (validate_invoices invoices).2 !! code) as [v|]; simpl in Hcnt.
  - specialize (Hpos v eq_refl). rewrite decide_False by lia. by rewrite Hcnt.
  - rewrite decide_True by lia. done.
Qed.

Lemma results_with_zero code (rs : list InvoiceValidationResult) :
  results_with code rs = 0%nat ↔ ∀ r, r ∈ rs → code ∉ errors r.
Proof.
  unfold results_with. rewrite length_zero_iff_nil. split.
  - intros Hnil r Hr Hc.
    assert (r ∈ filter (λ r, code ∈ errors r) rs) as Hin by by apply list_elem_of_filter.
    rewrite Hnil in Hin. by apply elem_of_nil in Hin.
  - intros H. induction rs as [|r rs IH]; [done|].
    rewrite filter_cons. rewrite decide_False by (apply H; apply list_elem_of_here).
    apply IH. intros r' Hr'. apply H. by apply list_elem_of_further.
Qed.

Lemma results_with_pos code (rs : list InvoiceValidationResult) :
  results_with code rs ≠ 0%nat → ∃ r, r ∈ rs ∧ code ∈ errors r.
Proof.
  unfold results_with. intros Hne.
  destruct (filter (λ r, code ∈ errors r) rs) as [|r rest] eqn:Hf; [done|].
  assert (Hin : r ∈ filter (λ r, code ∈ errors r) rs)
    by (rewrite Hf; apply list_elem_of_here).
  apply list_elem_of_filter in Hin as [Hc Hr]. eauto.
Qed.

(** X1. A code is a key of [error_counts] exactly when some result holds it:
    no code is left out and no key is there without an error behind it. *)
Theorem error_counts_keys (invoices : list Invoice) (code : string) :
  is_Some (error_counts (validate_invoices invoices).2 !! code)
  ↔ ∃ r, r ∈ (validate_invoices invoices).1 ∧ code ∈ errors r.
Proof.
  rewrite error_counts_lookup. case_decide as Hz.
  - split; [by intros []|]. intros (r & Hr & Hc). exfalso.
    by apply (proj1 (results_with_zero _ _) Hz r Hr).
  - split; [|eauto]. intros _. by apply results_with_pos.
Qed.

(** X2. The result at position [i] carries the invoice number of the record
    at position [i], and it is valid exactly when the record has no
    per-record error and no earlier record has its duplicate key. *)
Theorem result_valid_iff (invoices : list Invoice) (i : nat) (inv : Invoice) :
  invoices !! i = Some inv →
  ∃ r, (validate_invoices invoices).1 !! i = Some r
       ∧ invoice_id r = invoice_number inv
       ∧ (is_valid r = true
          ↔ invoice_errors inv = [] ∧ dup_key inv ∉ dup_key <$> take i invoices).
Proof.
  intros Hi. rewrite validate_invoices_results, (flag_duplicates_lookup _ _ _ _ Hi).
  rewrite app_nil_l. eexists. split; [reflexivity|]. case_decide as Hk; simpl.
  - split; [done|]. split; [done|]. by intros [_ ?].
  - split; [done|]. destruct (invoice_errors inv); simpl; split; try done.
    by intros [? _].
Qed.

Lemma result_valid_iff_witness :
  ∃ r, (validate_invoices [acme_invoice "Acme" "INV-2" "INR" 100;
                           acme_invoice "Acme" "INV-3" "INR" 7]).1 !! 1%nat = Some r
       ∧ is_valid r = true.
Proof.
  destruct (result_valid_iff
              [acme_invoice "Acme" "INV-2" "INR" 100; acme_invoice "Acme" "INV-3" "INR" 7]
              1 (acme_invoice "Acme" "INV-3" "INR" 7) eq_refl) as (r & Hr & _ & Hv).
  exists r. split; [done|]. apply Hv. split; [by vm_compute|].
  vm_compute. intros [= ]%list_elem_of_singleton.
Defined.

Lemma results_with_cons code r (rs : list InvoiceValidationResult) :
  results_with code (r :: rs)
  = ((if decide (code ∈ errors r) then 1 else 0) + results_with code rs)%nat.
Proof. unfold results_with. rewrite filter_cons. by case_decide. Qed.

Lemma flagged_plus_keys prev invoices :
  (results_with duplicate_error (flag_duplicates prev invoices)
   + size (list_to_set (prev ++ (dup_key <$> invoices)) : gset (string * string * date))
   = length invoices + size (list_to_set prev : gset (string * string * date)))%nat.
Proof.
  revert prev. induction invoices as [|inv rest IH]; intros prev.
  - simpl. rewrite app_nil_r. done.
  - rewrite fmap_cons. cbn [flag_duplicates length].
    rewrite results_with_cons.
    specialize (IH (prev ++ [dup_key inv])). rewrite <- app_assoc in IH.
    cbn [app] in IH. rewrite list_to_set_snoc_L in IH.
    destruct (decide (dup_key inv ∈ prev)) as [Hin|Hout].
    + rewrite decide_True by (simpl; apply elem_of_app; right; apply list_elem_of_here).
      replace (list_to_set prev ∪ {[dup_key inv]})
        with (list_to_set prev : gset (string * string * date)) in IH; [lia|].
      apply set_eq. intros k. rewrite elem_of_union, elem_of_singleton, elem_of_list_to_set.
      split; [by auto|]. by intros [?| ->].
    + rewrite decide_False by apply duplicate_error_fresh.
      rewrite size_union in IH.
      * rewrite size_singleton in IH. lia.
      * intros k Hk ->%elem_of_singleton. by apply elem_of_list_to_set in Hk.
Qed.

Lemma flagged_count invoices :
  (results_with duplicate_error (flag_duplicates [] invoices) + distinct_keys invoices
   = length invoices)%nat.
Proof.
  pose proof (flagged_plus_keys [] invoices) as H. rewrite app_nil_l in H.
  change (list_to_set []) with (∅ : gset (string * string * date)) in H.
  rewrite size_empty in H. unfold distinct_keys. lia.
Qed.

(** X3. The number of results that carry ['anomaly: duplicate_invoice'] is the
    number of records minus the number of different duplicate keys. *)
Theorem duplicates_flagged_count (invoices : list Invoice) :
  (results_with "anomaly: duplicate_invoice" (validate_invoices invoices).1
   + distinct_keys invoices = length invoices)%nat.
Proof. rewrite validate_invoices_results. apply flagged_count. Qed.

Lemma flag_duplicates_valid prev invoices :
  Forall (λ r, is_valid r = true ↔ errors r = []) (flag_duplicates prev invoices).
Proof.
  apply flag_duplicates_Forall; intros inv; simpl.
  - destruct (invoice_errors inv); simpl; split; congruence.
  - split; [done|]. intros H. by destruct (invoice_errors inv).
Qed.

Lemma valid_not_flagged (rs : list InvoiceValidationResult) :
  Forall (λ r, is_valid r = true ↔ errors r = []) rs →
  (length (filter (λ r, is_valid r = true) rs) + results_with duplicate_error rs
   ≤ length rs)%nat.
Proof.
  induction 1 as [|r rs Hr _ IH]; [done|].
  rewrite results_with_cons, filter_cons. cbn [length].
  destruct (decide (is_valid r = true)) as [Hv|Hv].
  - rewrite decide_False; [simpl; lia|].
    rewrite (proj1 Hr Hv). apply not_elem_of_nil.
  - case_decide; lia.
Qed.

(** X4. No more records are valid than there are different duplicate keys. *)
Theorem valid_at_most_distinct_keys (invoices : list Invoice) :
  valid_invoices (validate_invoices invoices).2 ≤ Z.of_nat (distinct_keys invoices).
Proof.
  destruct (validate_invoices_unfold invoices) as (c & -> & _). simpl.
  pose proof (flagged_count invoices) as Hdup.
  pose proof (valid_not_flagged _ (flag_duplicates_valid [] invoices)) as Hvalid.
  pose proof (valid_invalid_length (flag_duplicates [] invoices)) as Hsum.
  pose proof (flag_duplicates_length [] invoices) as Hlen.
  unfold count_invalid. lia.
Qed.

Lemma results_with_other code prev invoices :
  code ≠ duplicate_error →
  results_with code (flag_duplicates prev invoices)
  = length (filter (λ inv, code ∈ invoice_errors inv) invoices).
Proof.
  intros Hne. revert prev. induction invoices as [|inv rest IH]; intros prev; [done|].
  cbn [flag_duplicates]. rewrite results_with_cons, filter_cons, IH.
  assert (code ∈ errors (mark_duplicate (first_pass_result inv))
          ↔ code ∈ invoice_errors inv) as Hmark.
  { simpl. rewrite elem_of_app, list_elem_of_singleton. tauto. }
  destruct (decide (dup_key inv ∈ prev)).
  - destruct (decide (code ∈ invoice_errors inv)) as [Hin|Hout].
    + by rewrite decide_True by by apply Hmark.
    + by rewrite decide_False by (intros ?%Hmark; done).
  - simpl. by destruct (decide (code ∈ invoice_errors inv)).
Qed.

Lemma results_with_perm code invoices invoices' :
  invoices ≡ₚ invoices' →
  results_with code (flag_duplicates [] invoices)
  = results_with code (flag_duplicates [] invoices').
Proof.
  intros Hperm. destruct (decide (code = duplicate_error)) as [->|Hne].
  - pose proof (flagged_count invoices) as H1.
    pose proof (flagged_count invoices') as H2.
    unfold distinct_keys in *. rewrite Hperm in H1 at 2 3. lia.
  - rewrite !results_with_other by done. by rewrite Hperm.
Qed.

(** X5. [error_counts] does not depend on the order of the input: two input
    lists with the same records in a different order give the same counts,
    although the results themselves differ. *)
Theorem error_counts_order_independent (invoices invoices' : list Invoice) :
  invoices ≡ₚ invoices' →
  error_counts (validate_invoices invoices).2 = error_counts (validate_invoices invoices').2.
Proof.
  intros Hperm. apply map_eq. intros code.
  rewrite !error_counts_lookup, !validate_invoices_results.
  by rewrite (results_with_perm code _ _ Hperm).
Qed.

Lemma error_counts_order_independent_witness :
  error_counts (validate_invoices [acme_invoice "Acme" "INV-2" "INR" 100;
                                   acme_invoice "acme" "INV-2" "XYZ" 7]).2
  = error_counts (validate_invoices [acme_invoice "acme" "INV-2" "XYZ" 7;
                                     acme_invoice "Acme" "INV-2" "INR" 100]).2.
Proof. apply error_counts_order_independent. apply perm_swap. Defined.

Lemma completeness_elem code inv :
  code ∈ _check_completeness inv ↔
    (code = "missing_field: invoice_number" ∧ invoice_number inv = "")
    ∨ (code = "missing_field: seller_name" ∧ seller_name inv = "")
    ∨ (code = "missing_field: buyer_name" ∧ buyer_name inv = "").
Proof.
  assert (Hfalsy : ∀ s, str_falsy s = true ↔ s = "") by (intros []; simpl; split; done).
  unfold _check_completeness, date_falsy.
  rewrite !elem_of_app, !elem_of_cond, !Hfalsy, elem_of_nil. tauto.
Qed.

(** X6. No validation result ever holds ['missing_field: invoice_date']: a
    date is never taken for missing, so that branch of the completeness pass
    is dead. *)
Theorem invoice_date_never_missing (invoices : list Invoice) :
  Forall (λ r, "missing_field: invoice_date" ∉ errors r) (validate_invoices invoices).1.
Proof.
  assert (Hper : ∀ inv, "missing_field: invoice_date" ∉ invoice_errors inv).
  { intros inv. unfold invoice_errors.
    rewrite !elem_of_app, completeness_elem, format_elem, business_rules_elem.
    intros [[[? _]|[[? _]|[? _]]]
           |[[[? _]|[[? _]|[[? _]|[[? _]|[[? _]|[[? _]|H]]]]]]
            |[[? _]|[[? _]|[? _]]]]]; try done.
    by apply not_line_code_not_in_items in H. }
  rewrite validate_invoices_results.
  apply flag_duplicates_Forall; intros inv; simpl; [apply Hper|].
  rewrite elem_of_app, list_elem_of_singleton. intros [?|?]; [by apply (Hper inv)|done].
Qed.

(** ** Binary64 facts behind the numeric checks *)

Lemma exceeds_tolerance_self x : exceeds_tolerance x x = false.
Proof.
  unfold exceeds_tolerance. rewrite ltb_spec, abs_spec, sub_spec.
  destruct (Prim2SF x) as [s|s| |s m e].
  - by destruct s.
  - by destruct s.
  - done.
  - unfold SF64sub, SFsub. cbv zeta. rewrite Z.sub_diag. done.
Qed.

Lemma is_nan_Prim2SF x : PrimFloat.is_nan x = true → Prim2SF x = S754_nan.
Proof.
  unfold PrimFloat.is_nan. intros H%negb_true_iff. rewrite FloatAxioms.eqb_spec in H.
  destruct (Prim2SF x) as [s|s| |s m e]; try done.
  - by destruct s.
  - unfold SFeqb, SFcompare in H. rewrite Z.compare_refl, Pos.compare_cont_refl in H.
    by destruct s.
Qed.

Lemma exceeds_tolerance_nan_r x y : PrimFloat.is_nan y = true → exceeds_tolerance x y = false.
Proof.
  intros Hy%is_nan_Prim2SF. unfold exceeds_tolerance.
  rewrite ltb_spec, abs_spec, sub_spec, Hy.
  by destruct (Prim2SF x) as [s|s| |s m e].
Qed.

Lemma exceeds_tolerance_nan_l x y : PrimFloat.is_nan x = true → exceeds_tolerance x y = false.
Proof.
  intros Hx%is_nan_Prim2SF. unfold exceeds_tolerance.
  by rewrite ltb_spec, abs_spec, sub_spec, Hx.
Qed.

Lemma add_nan_l x y : PrimFloat.is_nan x = true → PrimFloat.is_nan (PrimFloat.add x y) = true.
Proof.
  intros Hx%is_nan_Prim2SF. unfold PrimFloat.is_nan.
  by rewrite FloatAxioms.eqb_spec, add_spec, Hx.
Qed.

Lemma flt_neg_nan x : PrimFloat.is_nan x = true → flt_neg x = false.
Proof. intros Hx%is_nan_Prim2SF. unfold flt_neg. by rewrite ltb_spec, Hx. Qed.

(** X7. A record whose [gross_total] is the float sum of its [net_total] and
    [tax_amount], as the extractor's fall-back computes it, never gets
    ['business_rule_failed: totals_mismatch'], whatever the two numbers are
    (infinities and NaN included). *)
Theorem summed_gross_total_never_mismatches (inv : Invoice) :
  gross_total inv = PrimFloat.add (net_total inv) (tax_amount inv) →
  "business_rule_failed: totals_mismatch" ∉ _check_business_rules inv.
Proof.
  intros Hg. rewrite business_rules_elem, Hg, exceeds_tolerance_self.
  intros [(? & _)|[(_ & ?)|(? & _)]]; done.
Qed.

Lemma summed_gross_total_never_mismatches_witness :
  "business_rule_failed: totals_mismatch"
    ∉ _check_business_rules (dated_invoice (Date 2024 1 10) None).
Proof. by apply summed_gross_total_never_mismatches. Defined.

(** X8. A [net_total] that is NaN is never reported: it is not negative for
    the format pass, and no comparison of the business rules that involves it
    exceeds the tolerance. *)
Theorem nan_net_total_is_not_reported (inv : Invoice) :
  PrimFloat.is_nan (net_total inv) = true →
  ("format_error: net_total_negative" ∉ _check_format_and_ranges inv)
  ∧ ("business_rule_failed: line_items_net_mismatch" ∉ _check_business_rules inv)
  ∧ ("business_rule_failed: totals_mismatch" ∉ _check_business_rules inv).
Proof.
  intros Hnan. rewrite format_elem, !business_rules_elem.
  rewrite (flt_neg_nan _ Hnan), (exceeds_tolerance_nan_r _ _ Hnan).
  rewrite (exceeds_tolerance_nan_l _ _ (add_nan_l _ _ Hnan)).
  split; [|split].
  - intros [[? _]|[[? _]|[[? _]|[[_ ?]|[[? _]|[[? _]|H]]]]]]; try done.
    by apply not_line_code_not_in_items in H.
  - intros [(_ & _ & ?)|[(? & _)|(? & _)]]; done.
  - intros [(? & _)|[(_ & ?)|(? & _)]]; done.
Qed.

Lemma nan_net_total_is_not_reported_witness :
  "business_rule_failed: line_items_net_mismatch"
    ∉ _check_business_rules (itemised_invoice PrimFloat.nan [1%float]).
Proof.
  by apply (nan_net_total_is_not_reported (itemised_invoice PrimFloat.nan [1%float])).
Defined.

(** ** Case and whitespace in the string builtins *)

Lemma upper_char_idem c : PyStr.upper_char (PyStr.upper_char c) = PyStr.upper_char c.
Proof. destruct c as [[] [] [] [] [] [] [] []]; reflexivity. Qed.

Lemma is_space_upper_char c : PyStr.is_space (PyStr.upper_char c) = PyStr.is_space c.
Proof. destruct c as [[] [] [] [] [] [] [] []]; reflexivity. Qed.

Lemma upper_idem s : PyStr.upper (PyStr.upper s) = PyStr.upper s.
Proof.
  unfold PyStr.upper. induction s as [|c r IH]; [done|].
  simpl. by rewrite upper_char_idem, IH.
Qed.

Lemma lstrip_upper s : PyStr.lstrip (PyStr.upper s) = PyStr.upper (PyStr.lstrip s).
Proof.
  unfold PyStr.upper. induction s as [|c r IH]; [done|].
  simpl. rewrite is_space_upper_char. by destruct (PyStr.is_space c).
Qed.

Lemma rstrip_upper s : PyStr.rstrip (PyStr.upper s) = PyStr.upper (PyStr.rstrip s).
Proof.
  unfold PyStr.upper. induction s as [|c r IH]; [done|].
  simpl. rewrite IH, is_space_upper_char.
  destruct (PyStr.rstrip r); simpl; [by destruct (PyStr.is_space c)|done].
Qed.

Lemma strip_upper s : PyStr.strip (PyStr.upper s) = PyStr.upper (PyStr.strip s).
Proof. unfold PyStr.strip. by rewrite lstrip_upper, rstrip_upper. Qed.

Lemma lstrip_idem s : PyStr.lstrip (PyStr.lstrip s) = PyStr.lstrip s.
Proof.
  induction s as [|c r IH]; [done|]. simpl.
  destruct (PyStr.is_space c) eqn:Hc; [done|]. simpl. by rewrite Hc.
Qed.

Lemma rstrip_idem s : PyStr.rstrip (PyStr.rstrip s) = PyStr.rstrip s.
Proof.
  induction s as [|c r IH]; [done|]. simpl.
  destruct (PyStr.rstrip r) as [|c' r'] eqn:Hr.
  - destruct (PyStr.is_space c) eqn:Hc; [done|]. simpl. by rewrite Hc.
  - simpl in *. by rewrite IH.
Qed.

Lemma lstrip_rstrip s : PyStr.lstrip (PyStr.rstrip s) = PyStr.rstrip (PyStr.lstrip s).
Proof.
  induction s as [|c r IH]; [done|]. simpl.
  destruct (PyStr.is_space c) eqn:Hc.
  - rewrite <- IH. destruct (PyStr.rstrip r); simpl; [done|]. by rewrite Hc.
  - simpl. destruct (PyStr.rstrip r); simpl; by rewrite Hc.
Qed.

Lemma strip_idem s : PyStr.strip (PyStr.strip s) = PyStr.strip s.
Proof.
  unfold PyStr.strip.
  by rewrite (lstrip_rstrip (PyStr.lstrip s)), lstrip_idem, rstrip_idem.
Qed.

Lemma validate_currency_idem v : validate_currency (validate_currency v) = validate_currency v.
Proof.
  unfold validate_currency.
  by rewrite strip_upper, strip_idem, <- strip_upper, upper_idem.
Qed.

Lemma upper_validate_currency v : PyStr.upper (validate_currency v) = validate_currency v.
Proof. unfold validate_currency. by rewrite <- strip_upper, upper_idem. Qed.

(** ** The constructors of the data model *)

(** X9. [LineItem] construction succeeds exactly when quantity, unit price and
    line total are all at least 0 (NaN is not), and then it stores the three
    numbers unchanged: a line total that disagrees with quantity times unit
    price is neither rejected nor replaced. *)
Theorem LineItem_new_iff (d : string) (q u t : float) (li : LineItem) :
  LineItem_new d q u t = Ok li
  ↔ ge0 q = true ∧ ge0 u = true ∧ ge0 t = true ∧ li = mkLineItem d q u t.
Proof.
  unfold LineItem_new. rewrite validate_line_total_id.
  destruct (ge0 q), (ge0 u), (ge0 t); simpl; split;
    try done; try (by intros (? & ? & ? & ?)).
  - by intros [= <-].
  - by intros (_ & _ & _ & ->).
Qed.

Lemma validate_line_items_fixed items :
  Forall (λ li, ge0 (quantity li) = true ∧ ge0 (unit_price li) = true
                ∧ ge0 (line_total li) = true) items →
  validate_line_items items = Ok items.
Proof.
  induction 1 as [|li rest (Hq & Hu & Ht) _ IH]; [done|].
  simpl. rewrite IH. unfold LineItem_new. rewrite validate_line_total_id, Hq, Hu, Ht.
  by destruct li.
Qed.

(** X10. Building a record from a record that the constructor returned gives
    the same record: the normalised currency and the validated line items
    are fixed points of [Invoice] construction. *)
Theorem Invoice_new_idempotent (raw inv : Invoice) :
  Invoice_new raw = Ok inv → Invoice_new inv = Ok inv.
Proof.
  unfold Invoice_new. intros H.
  destruct (validate_line_items (line_items raw)) as [items|e] eqn:Hitems; [|done].
  injection H as <-. cbn [line_items currency].
  rewrite (validate_line_items_fixed items) by by eapply validate_line_items_ge0.
  by rewrite validate_currency_idem.
Qed.

Lemma Invoice_new_idempotent_witness :
  Invoice_new (acme_invoice "Acme" "INV-2" "USD" 100)
  = Ok (acme_invoice "Acme" "INV-2" "USD" 100).
Proof.
  apply (Invoice_new_idempotent (acme_invoice "Acme" "INV-2" " usd " 100)). by vm_compute.
Defined.

(** X11. For a record built by the constructor, the format pass reports
    ['format_error: currency_invalid'] exactly when the currency given to the
    constructor, upper-cased and stripped of surrounding whitespace, is none
    of INR, EUR, USD and GBP. *)
Theorem constructed_currency_check (raw inv : Invoice) :
  Invoice_new raw = Ok inv →
  ("format_error: currency_invalid" ∈ _check_format_and_ranges inv
   ↔ PyStr.strip (PyStr.upper (currency raw)) ∉ ["INR"; "EUR"; "USD"; "GBP"]).
Proof.
  unfold Invoice_new. intros H.
  destruct (validate_line_items (line_items raw)) as [items|e]; [|done].
  injection H as <-. rewrite format_elem. cbn [currency].
  rewrite upper_validate_currency. unfold validate_currency, allowed_currencies.
  split; [|by auto 10].
  intros [[? _]|[[? _]|[[_ ?]|[[? _]|[[? _]|[[? _]|H]]]]]]; try done.
  by apply not_line_code_not_in_items in H.
Qed.

Lemma constructed_currency_check_witness :
  "format_error: currency_invalid"
    ∉ _check_format_and_ranges (acme_invoice "Acme" "INV-2" "USD" 100).
Proof.
  intros H.
  apply (constructed_currency_check (acme_invoice "Acme" "INV-2" " usd " 100)
           (acme_invoice "Acme" "INV-2" "USD" 100) eq_refl) in H.
  apply H. vm_compute. do 2 apply list_elem_of_further. apply list_elem_of_here.
Defined.

(** ** Whitespace: [clean_text] and what follows it *)

Lemma collapse_ws_go_collapsed s b : collapsed_go (PyStr.collapse_ws_go s b) b = true.
Proof.
  revert b. induction s as [|c r IH]; intros b; [done|]. simpl.
  destruct (PyStr.is_space c) eqn:Hc.
  - destruct b; [apply IH|]. simpl. by rewrite IH.
  - simpl. rewrite Hc. apply IH.
Qed.

Lemma collapsed_go_fixed s b : collapsed_go s b = true → PyStr.collapse_ws_go s b = s.
Proof.
  revert b. induction s as [|c r IH]; intros b; [done|]. simpl.
  destruct (PyStr.is_space c).
  - intros [[Hsp Hb%negb_true_iff]%andb_true_iff Hr]%andb_true_iff. subst b.
    apply Ascii.eqb_eq in Hsp as ->. by rewrite (IH _ Hr).
  - intros Hr. by rewrite (IH _ Hr).
Qed.

Lemma collapsed_go_lstrip s b : collapsed_go s b = true → collapsed (PyStr.lstrip s) = true.
Proof.
  unfold collapsed. revert b. induction s as [|c r IH]; intros b; [done|]. simpl.
  destruct (PyStr.is_space c) eqn:Hc.
  - intros [_ Hr]%andb_true_iff. by eapply IH.
  - intros Hr. simpl. by rewrite Hc.
Qed.

Lemma collapsed_go_rstrip s b : collapsed_go s b = true → collapsed_go (PyStr.rstrip s) b = true.
Proof.
  revert b. induction s as [|c r IH]; intros b; [done|]. simpl.
  destruct (PyStr.is_space c) eqn:Hc.
  - intros [Hcb Hr]%andb_true_iff. apply IH in Hr.
    destruct (PyStr.rstrip r); [done|]. simpl in *. by rewrite Hc, Hcb, Hr.
  - intros Hr%IH. destruct (PyStr.rstrip r); simpl in *; by rewrite Hc.
Qed.

Lemma strip_collapse_clean x :
  PyStr.strip (PyStr.collapse_ws x) ≠ EmptyString →
  clean_line (PyStr.strip (PyStr.collapse_ws x)).
Proof.
  intros Hne. split; [done|]. split; [apply strip_idem|].
  unfold PyStr.strip, collapsed. apply collapsed_go_rstrip.
  apply (collapsed_go_lstrip _ false), collapse_ws_go_collapsed.
Qed.

Lemma clean_line_fixed l : clean_line l → PyStr.strip (PyStr.collapse_ws l) = l.
Proof. intros (_ & Hs & Hc). unfold PyStr.collapse_ws. by rewrite (collapsed_go_fixed _ _ Hc). Qed.

Lemma linebreak_is_space c : PyStr.is_linebreak c = true → PyStr.is_space c = true.
Proof. destruct c as [[] [] [] [] [] [] [] []]; by vm_compute. Qed.

Lemma collapsed_go_no_linebreak s b : collapsed_go s b = true → no_linebreak s = true.
Proof.
  revert b. induction s as [|c r IH]; intros b; [done|]. simpl.
  destruct (PyStr.is_space c) eqn:Hc.
  - intros [[Hsp _]%andb_true_iff Hr]%andb_true_iff.
    apply Ascii.eqb_eq in Hsp as ->. simpl. by eapply IH.
  - intros Hr. rewrite (IH _ Hr), andb_true_r.
    destruct (PyStr.is_linebreak c) eqn:Hl; [|done].
    apply linebreak_is_space in Hl. congruence.
Qed.

Lemma split_ws2_go_collapsed s m :
  match m with
  | PyStr.InSegment _ => collapsed_go s false = true
  | PyStr.OneSpace _ _ => collapsed_go s true = true
  | PyStr.InSeparator => False
  end →
  ∃ x, PyStr.split_ws2_go s m = [x].
Proof.
  revert m. induction s as [|c r IH]; intros m Hm.
  - destruct m; [eauto..|done].
  - destruct m as [cur|cur w|]; [| |done]; simpl in *;
      destruct (PyStr.is_space c) eqn:Hc.
    + apply andb_true_iff in Hm as [_ Hr]. by apply (IH (PyStr.OneSpace cur c)).
    + by apply (IH (PyStr.InSegment _)).
    + by rewrite andb_false_r in Hm.
    + by apply (IH (PyStr.InSegment _)).
Qed.

Lemma split_ws2_collapsed s : collapsed s = true → length (PyStr.split_ws2 s) = 1%nat.
Proof.
  intros H. destruct (split_ws2_go_collapsed s (PyStr.InSegment EmptyString) H) as [x Hx].
  unfold PyStr.split_ws2. by rewrite Hx.
Qed.

Lemma append_empty_r s : s +:+ EmptyString = s.
Proof.
  induction s as [|c r IH]; [done|].
  change (String c (r +:+ EmptyString) = String c r). by rewrite IH.
Qed.

Lemma rev_app_rev_app a b c :
  String.rev_app (String.rev_app a b) c = String.rev_app b (a +:+ c).
Proof.
  revert b c. induction a as [|x a IH]; intros b c; [done|]. simpl. by rewrite IH.
Qed.

Lemma rev_rev_app l : String.rev (String.rev_app l EmptyString) = l.
Proof. unfold String.rev. rewrite rev_app_rev_app. apply append_empty_r. Qed.

Lemma rev_app_nonempty l cur : l ≠ EmptyString → String.rev_app l cur ≠ EmptyString.
Proof.
  revert cur. induction l as [|c r IH]; intros cur Hl; [done|]. simpl.
  destruct r as [|c' r']; [done|]. by apply IH.
Qed.

Lemma splitlines_go_line l s cur b :
  no_linebreak l = true →
  PyStr.splitlines_go (l +:+ s) cur b
  = PyStr.splitlines_go s (String.rev_app l cur)
      (match l with EmptyString => b | _ => false end).
Proof.
  revert cur b. induction l as [|c r IH]; intros cur b; [done|]. simpl.
  intros [Hc%negb_true_iff Hr]%andb_true_iff. rewrite Hc.
  assert (Ascii.eqb c "010" = false) as ->.
  { destruct (Ascii.eqb_spec c "010") as [->|]; [done|done]. }
  simpl. rewrite (IH _ _ Hr). by destruct r.
Qed.

Lemma splitlines_go_newline s cur :
  PyStr.splitlines_go (String "010" s) cur false
  = String.rev cur :: PyStr.splitlines_go s EmptyString false.
Proof. reflexivity. Qed.

Lemma splitlines_join (lines : list string) :
  Forall (λ l, l ≠ EmptyString ∧ no_linebreak l = true) lines →
  PyStr.splitlines (PyStr.join (String "010" EmptyString) lines) = lines.
Proof.
  unfold PyStr.splitlines. induction 1 as [|x rest [Hx Hnl] Hrest IH]; [done|].
  destruct rest as [|y ys].
  - simpl. rewrite <- (append_empty_r x) at 1. rewrite (splitlines_go_line _ _ _ _ Hnl).
    simpl. pose proof (rev_app_nonempty x EmptyString Hx).
    destruct (String.rev_app x EmptyString) eqn:Hrev; [done|].
    by rewrite <- Hrev, rev_rev_app.
  - change (PyStr.join (String "010" EmptyString) (x :: y :: ys))
      with (x +:+ String "010" (PyStr.join (String "010" EmptyString) (y :: ys))).
    rewrite (splitlines_go_line _ _ _ _ Hnl).
    assert (match x with EmptyString => false | _ => false end = false) as ->
      by by destruct x.
    by rewrite splitlines_go_newline, rev_rev_app, IH.
Qed.

Lemma clean_line_plain l : clean_line l → l ≠ EmptyString ∧ no_linebreak l = true.
Proof. intros (Hne & _ & Hc). split; [done|]. by eapply collapsed_go_no_linebreak. Qed.

Lemma cleaned_lines_clean (lines : list string) :
  Forall clean_line
    (filter (λ l, Utils.nonempty l = true)
       ((λ line, PyStr.strip (PyStr.collapse_ws line)) <$> lines)).
Proof.
  induction lines as [|x rest IH]; [done|].
  rewrite fmap_cons, filter_cons. case_decide as Hne; [|done].
  constructor; [|done]. apply strip_collapse_clean.
  by destruct (PyStr.strip (PyStr.collapse_ws x)).
Qed.

Lemma clean_lines_fixed (lines : list string) :
  Forall clean_line lines →
  filter (λ l, Utils.nonempty l = true)
    ((λ line, PyStr.strip (PyStr.collapse_ws line)) <$> lines) = lines.
Proof.
  induction 1 as [|x rest Hx _ IH]; [done|].
  rewrite fmap_cons, filter_cons, IH, (clean_line_fixed _ Hx).
  rewrite decide_True; [done|]. destruct Hx as [Hne _]. by destruct x.
Qed.

Lemma clean_text_splitlines text :
  PyStr.splitlines (Utils.clean_text text)
  = filter (λ l, Utils.nonempty l = true)
      ((λ line, PyStr.strip (PyStr.collapse_ws line)) <$> PyStr.splitlines text).
Proof.
  unfold Utils.clean_text. apply splitlines_join.
  eapply Forall_impl; [apply cleaned_lines_clean|]. apply clean_line_plain.
Qed.

Lemma clean_text_lines_clean text :
  Forall clean_line (PyStr.splitlines (Utils.clean_text text)).
Proof. rewrite clean_text_splitlines. apply cleaned_lines_clean. Qed.

(** X12. The lines of cleaned text are the cleaned, non-blank lines of the
    input in their order, and each of them is not blank, has no whitespace at
    either end and no whitespace inside other than single spaces. *)
Theorem clean_text_lines (text : string) :
  PyStr.splitlines (Utils.clean_text text)
  = filter (λ l, Utils.nonempty l = true)
      ((λ line, PyStr.strip (PyStr.collapse_ws line)) <$> PyStr.splitlines text)
  ∧ Forall clean_line (PyStr.splitlines (Utils.clean_text text)).
Proof. split; [apply clean_text_splitlines|apply clean_text_lines_clean]. Qed.

(** X13. [clean_text] is idempotent: cleaning cleaned text changes nothing. *)
Theorem clean_text_idempotent (text : string) :
  Utils.clean_text (Utils.clean_text text) = Utils.clean_text text.
Proof.
  unfold Utils.clean_text.
  rewrite splitlines_join.
  - by rewrite clean_lines_fixed by apply cleaned_lines_clean.
  - eapply Forall_impl; [apply cleaned_lines_clean|]. apply clean_line_plain.
Qed.

(** ** Line items behind [clean_text] *)

Lemma after_header_Forall (P : string → Prop) lines body :
  after_header lines = Some body → Forall P lines → Forall P body.
Proof.
  induction lines as [|l rest IH]; [done|]. simpl.
  intros H Hall. apply Forall_cons in Hall as [_ Hrest].
  destruct (is_header l); [by injection H as <-|by apply IH].
Qed.

Lemma line_items_loop_clean py_float lines items :
  Forall clean_line lines → line_items_loop py_float lines items = Ok items.
Proof.
  induction 1 as [|l rest (_ & Hs & Hc) _ IH]; [done|]. simpl.
  destruct (is_totals_line l); [done|].
  by rewrite Hs, (split_ws2_collapsed _ Hc).
Qed.

Lemma extract_line_items_clean py_float text :
  extract_line_items py_float (Utils.clean_text text) = Ok [].
Proof.
  unfold extract_line_items.
  destruct (after_header _) as [body|] eqn:Hbody; [|done].
  apply line_items_loop_clean.
  eapply after_header_Forall; [done|]. apply clean_text_lines_clean.
Qed.


(** X14. On the text that [extract_text_from_pdf] returns, the line-item
    extractor finds no item, whatever the pages hold: [clean_text] has
    reduced every run of whitespace to one space, so no line splits on two or
    more spaces into three segments. *)
Theorem no_line_items_after_clean_text (py_float : py_float_t) (pages : list (option string)) :
  extract_line_items py_float (extract_text_from_pdf pages) = Ok [].
Proof. apply extract_line_items_clean. Qed.






(** ** The line-item loop on arbitrary text *)

Lemma float_or_truthy_or o d :
  PyStr.float_truthy (PyStr.float_or o d) = true ∨ PyStr.float_or o d = d.
Proof.
  unfold PyStr.float_or. destruct o as [x|]; [|by right].
  destruct (PyStr.float_truthy x) eqn:Hx; [by left|by right].
Qed.

Lemma item_of_parts_ok py_float parts li :
  item_of_parts py_float parts = Some (Ok li) → extracted_item_ok li.
Proof.
  unfold item_of_parts.
  destruct (Utils.nonempty (default "" (parts !! 0%nat))) eqn:Hd; [|done].
  intros [= H]. unfold LineItem_new in H. rewrite validate_line_total_id in H.
  destruct (ge0 _) eqn:Hq in H; [|done]. destruct (ge0 _) eqn:Hu in H; [|done].
  destruct (ge0 _) eqn:Ht in H; [|done]. simpl in H. injection H as <-.
  unfold extracted_item_ok. cbn [description quantity unit_price line_total].
  split; [by destruct (default "" (parts !! 0%nat))|].
  repeat (split; [done|]). apply float_or_truthy_or.
Qed.

Lemma line_items_loop_ok py_float lines acc items :
  line_items_loop py_float lines acc = Ok items →
  Forall extracted_item_ok acc →
  Forall extracted_item_ok items ∧ (length items ≤ length acc + length lines)%nat.
Proof.
  revert acc. induction lines as [|l rest IH]; intros acc H Hacc; simpl in H.
  - injection H as <-. split; [done|lia].
  - destruct (is_totals_line l); [injection H as <-; split; [done|lia]|].
    destruct (length _ <? 3)%nat.
    { destruct (IH _ H Hacc). split; [done|simpl; lia]. }
    destruct (item_of_parts py_float _) as [[li|e]|] eqn:Hitem; simpl in H.
    + destruct (IH _ H) as [? Hlen].
      { apply Forall_app. split; [done|]. constructor; [|done].
        by eapply item_of_parts_ok. }
      split; [done|]. rewrite length_app in Hlen. simpl in *. lia.
    + done.
    + destruct (IH _ H Hacc). split; [done|simpl; lia].
Qed.

(** X17. Every item that [extract_line_items] returns has a description that
    is not empty and a quantity, unit price and line total that are at least
    0; its line total is zero only as the product of quantity and unit price;
    and there are at most as many items as lines of text. *)
Theorem extracted_items_invariant (py_float : py_float_t) (text : string)
    (items : list LineItem) :
  extract_line_items py_float text = Ok items →
  Forall extracted_item_ok items ∧ (length items ≤ length (PyStr.splitlines text))%nat.
Proof.
  unfold extract_line_items. generalize (PyStr.splitlines text). intros lines.
  destruct (after_header lines) as [body|] eqn:Hbody.
  - intros H. destruct (line_items_loop_ok _ _ _ _ H) as [Hok Hlen]; [done|].
    split; [done|].
    assert (length body ≤ length lines)%nat; [|simpl in *; lia].
    clear -Hbody. revert Hbody. induction lines as [|l rest IH]; [done|]. simpl.
    destruct (is_header l); [intros [= <-]; lia|]. intros ?%IH. lia.
  - intros [= <-]. split; [done|simpl; lia].
Qed.

Lemma extracted_items_invariant_witness :
  Forall extracted_item_ok [mkLineItem "Widget" 2%float 5%float 10%float].
Proof.
  apply (extracted_items_invariant DecimalLiteral.decimal_float zero_total_text).
  by vm_compute.
Defined.

(** X18. The item loop stops for good at the first line that contains
    [subtotal], [net total] or [total]: the lines after it, item lines
    included, never change the outcome. *)
Theorem lines_after_totals_line_ignored (py_float : py_float_t)
    (before after : list string) (stop : string) (items : list LineItem) :
  is_totals_line stop = true →
  line_items_loop py_float (before ++ stop :: after) items
  = line_items_loop py_float before items.
Proof.
  intros Hstop. revert items. induction before as [|l rest IH]; intros items; simpl.
  - by rewrite Hstop.
  - destruct (is_totals_line l); [done|].
    destruct (length _ <? 3)%nat; [apply IH|].
    destruct (item_of_parts py_float _) as [[li|e]|]; simpl; [apply IH|done|apply IH].
Qed.

Lemma lines_after_totals_line_ignored_witness :
  line_items_loop DecimalLiteral.decimal_float
    ["Widget   2   5.00   10.00"; "Total Care Kit   1   3.00   3.00";
     "Gadget   1   4.00   4.00"] []
  = Ok [mkLineItem "Widget" 2%float 5%float 10%float].
Proof.
  etrans.
  - exact (lines_after_totals_line_ignored DecimalLiteral.decimal_float
             ["Widget   2   5.00   10.00"] ["Gadget   1   4.00   4.00"]
             "Total Care Kit   1   3.00   3.00" [] eq_refl).
  - by vm_compute.
Defined.

(** ** Totals, tax identifiers and the first-match helpers *)

Lemma totals_step_net re_search py_float st l :
  (totals_step re_search py_float st l).1.1
  = if net_keyword l then line_amount re_search py_float l st.1.1 else st.1.1.
Proof. by destruct st as [[n t] g]. Qed.

Lemma totals_fold_keeps_net re_search py_float lines st :
  Forall (λ l, net_keyword l = true → re_search "([0-9.,]+)" false l = None) lines →
  (fold_left (totals_step re_search py_float) lines st).1.1 = st.1.1.
Proof.
  intros H. revert st. induction H as [|l rest Hl _ IH]; intros st; [done|].
  simpl. rewrite IH, totals_step_net.
  destruct (net_keyword l); [|done]. unfold line_amount. by rewrite Hl.
Qed.

(** X19. The net total that [extract_totals] returns comes from the last line
    that has the keyword and a number on it: the number of that line is
    parsed and replaces whatever earlier lines gave, also when it does not
    parse and the result is [None]. *)
Theorem net_total_last_line_wins (re_search : re_search_t) (py_float : py_float_t)
    (text : string) (before after : list string) (l : string) (m : list string) :
  PyStr.splitlines text = before ++ l :: after →
  net_keyword l = true →
  re_search "([0-9.,]+)" false l = Some m →
  Forall (λ l', net_keyword l' = true → re_search "([0-9.,]+)" false l' = None) after →
  (extract_totals re_search py_float text).1.1
  = Utils.parse_float_safe py_float (group m 1).
Proof.
  intros Hsplit Hkey Hm Hafter. unfold extract_totals.
  rewrite Hsplit, fold_left_app. simpl.
  rewrite (totals_fold_keeps_net _ _ _ _ Hafter), totals_step_net, Hkey.
  unfold line_amount. by rewrite Hm.
Qed.

Lemma net_total_last_line_wins_witness :
  (extract_totals
     (λ _ _ line, if PyStr.contains "x" line then Some ["x"; "x"]
                  else if PyStr.contains "12" line then Some ["12.50"; "12.50"] else None)
     DecimalLiteral.decimal_float
     ("Subtotal 12.50" +:+ newline +:+ "Subtotal x" +:+ newline +:+ "Thanks")).1.1
  = None.
Proof.
  rewrite (net_total_last_line_wins _ _ _ ["Subtotal 12.50"] ["Thanks"] "Subtotal x" ["x"; "x"]);
    [by vm_compute..|].
  constructor; [|done]. by vm_compute.
Defined.

Lemma tax_ids_buyer re_search lines s0 s b :
  tax_ids re_search lines s0 None = (s, b) → is_Some b → opt_truthy s = true.
Proof.
  revert s0. induction lines as [|l rest IH]; intros s0; simpl.
  - intros [= <- <-] []. done.
  - destruct (re_search _ true l) as [m|]; [|apply IH].
    destruct (opt_truthy s0) eqn:Hs0; simpl; [|apply IH].
    by intros [= <- <-] _.
Qed.

(** X20. [extract_parties] returns a buyer tax identifier only together with
    a seller tax identifier that is not empty: the first labelled identifier
    always goes to the seller. *)
Theorem buyer_tax_id_needs_seller (re_search : re_search_t) (text : string)
    (sn sa st bn ba bt : option string) :
  extract_parties re_search text = (sn, sa, st, bn, ba, bt) →
  is_Some bt → opt_truthy st = true.
Proof.
  unfold extract_parties.
  destruct (party_block _ _ _) as [sn' sa'], (party_block _ _ _) as [bn' ba'].
  destruct (tax_ids _ _ _ _) as [st' bt'] eqn:Hids.
  intros [= -> -> -> -> -> ->]. by eapply tax_ids_buyer.
Qed.

Lemma buyer_tax_id_needs_seller_witness :
  opt_truthy (Some "27AAA") = true.
Proof.
  apply (buyer_tax_id_needs_seller
           (λ pat _ line, if PyStr.starts_with "(GSTIN" pat
                          then if PyStr.contains "GSTIN" line then Some [line; "GSTIN"; "27AAA"]
                               else None
                          else None)
           ("GSTIN: 27AAA" +:+ newline +:+ "GSTIN: 27AAA")
           None None (Some "27AAA") None None (Some "27AAA")); [by vm_compute|done].
Defined.

(** X21. [find_first_match] returns the match of the first pattern of the
    list that matches, whatever later patterns would match, and [None]
    exactly when no pattern matches. *)
Theorem find_first_match_first_wins (re_search : re_search_t) (text : string)
    (ignorecase : bool) (patterns : list string) :
  (∀ before p after m,
     patterns = before ++ p :: after →
     Forall (λ q, re_search q ignorecase text = None) before →
     re_search p ignorecase text = Some m →
     Utils.find_first_match re_search patterns text ignorecase = Some m)
  ∧ (Utils.find_first_match re_search patterns text ignorecase = None
     ↔ Forall (λ q, re_search q ignorecase text = None) patterns).
Proof.
  split.
  - intros before p after m -> Hbefore Hp.
    induction Hbefore as [|q rest Hq _ IH]; simpl; [by rewrite Hp|by rewrite Hq].
  - induction patterns as [|q rest IH]; simpl; [done|].
    destruct (re_search q ignorecase text) eqn:Hq.
    + split; [done|]. intros [Hq' _]%Forall_cons. congruence.
    + rewrite IH. split; [by constructor|by intros [_ ?]%Forall_cons].
Qed.

Lemma find_first_match_first_wins_witness :
  Utils.find_first_match
    (λ p _ _, if String.eqb p "b" then Some ["hit"]
              else if String.eqb p "c" then Some ["late"] else None)
    ["a"; "b"; "c"] "text" false
  = Some ["hit"].
Proof.
  apply (proj1 (find_first_match_first_wins
                  (λ p _ _, if String.eqb p "b" then Some ["hit"]
                            else if String.eqb p "c" then Some ["late"] else None)
                  "text" false ["a"; "b"; "c"]) ["a"] "b" ["c"] ["hit"]);
    [reflexivity| |reflexivity].
  constructor; [reflexivity|constructor].
Defined.

(** X22. [parse_date] strips the value and returns the date of the first
    format of [DATE_FORMATS] that parses it, the ISO format before the
    day-first ones; it returns [None] exactly when no format parses it. *)
Theorem parse_date_first_format_wins (strptime : strptime_t) (value : string) :
  (∀ before fmt after d,
     Utils.DATE_FORMATS = before ++ fmt :: after →
     Forall (λ f, strptime (PyStr.strip value) f = None) before →
     strptime (PyStr.strip value) fmt = Some d →
     Utils.parse_date strptime value = Some d)
  ∧ (Utils.parse_date strptime value = None
     ↔ Forall (λ f, strptime (PyStr.strip value) f = None) Utils.DATE_FORMATS).
Proof.
  unfold Utils.parse_date. generalize Utils.DATE_FORMATS. intros fmts. split.
  - intros before fmt after d -> Hbefore Hfmt.
    induction Hbefore as [|f rest Hf _ IH]; simpl; [by rewrite Hfmt|by rewrite Hf].
  - induction fmts as [|f rest IH]; simpl; [done|].
    destruct (strptime (PyStr.strip value) f) eqn:Hf.
    + split; [done|]. intros [Hf' _]%Forall_cons. congruence.
    + rewrite IH. split; [by constructor|by intros [_ ?]%Forall_cons].
Qed.

Lemma parse_date_first_format_wins_witness :
  Utils.parse_date
    (λ v fmt, if String.eqb fmt "%d/%m/%Y" && String.eqb v "03/04/2024"
              then Some (Date 2024 4 3) else None)
    " 03/04/2024 "
  = Some (Date 2024 4 3).
Proof.
  apply (proj1 (parse_date_first_format_wins
                  (λ v fmt, if String.eqb fmt "%d/%m/%Y" && String.eqb v "03/04/2024"
                            then Some (Date 2024 4 3) else None)
                  " 03/04/2024 ")
           ["%Y-%m-%d"] "%d/%m/%Y" ["%d-%m-%Y"; "%d.%m.%Y"; "%d %b %Y"; "%d %B %Y"]);
    [reflexivity| |by vm_compute].
  constructor; [by vm_compute|constructor].
Defined.

(** ** The commands *)

Lemma all_valid_flag_duplicates prev invoices :
  Forall (λ r, is_valid r = true) (flag_duplicates prev invoices)
  ↔ Forall (λ inv, invoice_errors inv = []) invoices
    ∧ NoDup (dup_key <$> invoices)
    ∧ ∀ k, k ∈ dup_key <$> invoices → k ∉ prev.
Proof.
  revert prev. induction invoices as [|inv rest IH]; intros prev.
  - simpl. split; [|done]. intros _. split; [constructor|]. split; [constructor|].
    by intros k ?%elem_of_nil.
  - rewrite fmap_cons. cbn [flag_duplicates].
    rewrite !Forall_cons, NoDup_cons, IH.
    assert (Nat.eqb (length (invoice_errors inv)) 0 = true ↔ invoice_errors inv = [])
      as Hlen by by destruct (invoice_errors inv).
    destruct (decide (dup_key inv ∈ prev)) as [Hin|Hout]; simpl.
    + split; [by intros [? _]|]. intros (_ & _ & Hk). exfalso.
      by apply (Hk (dup_key inv)); [apply list_elem_of_here|].
    + rewrite Hlen. split.
      * intros (? & ? & ? & Hk). repeat split; try done.
        -- intros Hd. apply (Hk _ Hd), elem_of_app. right. apply list_elem_of_here.
        -- intros k [->|Hkr]%elem_of_cons; [done|].
           intros Hp. apply (Hk _ Hkr), elem_of_app. by left.
      * intros ([? ?] & [Hd ?] & Hk). repeat split; try done.
        intros k Hkr [Hp| ->%list_elem_of_singleton]%elem_of_app; [|done].
        by apply (Hk k); [apply list_elem_of_further|].
Qed.

Lemma count_invalid_zero (rs : list InvoiceValidationResult) :
  count_invalid rs = 0 ↔ Forall (λ r, is_valid r = true) rs.
Proof.
  unfold count_invalid. induction rs as [|r rs IH]; [done|].
  rewrite filter_cons, Forall_cons. destruct (is_valid r) eqn:Hv.
  - rewrite decide_False by done. rewrite IH. tauto.
  - rewrite decide_True by done. simpl. split; [lia|by intros [? _]].
Qed.

Lemma count_invalid_nonneg (rs : list InvoiceValidationResult) : 0 ≤ count_invalid rs.
Proof. unfold count_invalid. lia. Qed.

Lemma invalid_zero_iff invoices :
  invalid_invoices (validate_invoices invoices).2 = 0
  ↔ Forall (λ inv, invoice_errors inv = []) invoices ∧ NoDup (dup_key <$> invoices).
Proof.
  destruct (validate_invoices_unfold invoices) as (c & -> & _). simpl.
  rewrite count_invalid_zero, all_valid_flag_duplicates.
  split; [by intros (? & ? & _)|]. intros [? ?]. repeat split; try done.
  intros k _. apply not_elem_of_nil.
Qed.

(** X23. When the input file exists and every object parses, [validate]
    writes the report of [validate_invoices] and exits with status 0 unless
    [fail_on_invalid] is set and some record has a per-record error or two
    records share a duplicate key; then the status is 1. *)
Theorem validate_exit_policy (raw_invoices invoices : list Invoice) (fail_on_invalid : bool) :
  Cli.parse_all raw_invoices = Ok invoices →
  ∃ s, Cli.validate true raw_invoices fail_on_invalid
       = Ok (Cli.mkOutcome (Some ((validate_invoices invoices).2,
                                  (validate_invoices invoices).1)) s)
       ∧ (s = 0 ∨ s = 1)
       ∧ (s = 0 ↔ fail_on_invalid = false
                  ∨ (Forall (λ inv, invoice_errors inv = []) invoices
                     ∧ NoDup (dup_key <$> invoices))).
Proof.
  intros Hparse. unfold Cli.validate. simpl. rewrite Hparse. simpl.
  pose proof (invalid_zero_iff invoices) as Hz.
  pose proof (validate_invoices_unfold invoices) as (c & Hv & _).
  destruct (validate_invoices invoices) as [results summary] eqn:Hvi. simpl in *.
  eexists. split; [reflexivity|]. unfold Cli.exit_status.
  assert (0 ≤ invalid_invoices summary) as Hnn.
  { injection Hv as _ ->. simpl. apply count_invalid_nonneg. }
  destruct fail_on_invalid; simpl.
  - destruct (Z.ltb_spec 0 (invalid_invoices summary)).
    + split; [by right|]. split; [done|]. intros [?|Hok]; [done|]. apply Hz in Hok. lia.
    + split; [by left|]. split; [|done]. intros _. right. apply Hz. lia.
  - split; [by left|]. split; [by left|done].
Qed.

Lemma validate_exit_policy_witness :
  Cli.validate true [acme_invoice "Acme" "INV-2" "INR" 100;
                     acme_invoice "acme" "INV-2" "INR" 7] true
  = Ok (Cli.mkOutcome
          (Some ((validate_invoices [acme_invoice "Acme" "INV-2" "INR" 100;
                                     acme_invoice "acme" "INV-2" "INR" 7]).2,
                 (validate_invoices [acme_invoice "Acme" "INV-2" "INR" 100;
                                     acme_invoice "acme" "INV-2" "INR" 7]).1)) 1).
Proof.
  destruct (validate_exit_policy
              [acme_invoice "Acme" "INV-2" "INR" 100; acme_invoice "acme" "INV-2" "INR" 7]
              [acme_invoice "Acme" "INV-2" "INR" 100; acme_invoice "acme" "INV-2" "INR" 7]
              true eq_refl) as (s & -> & [-> | ->] & Hs); [|done].
  exfalso. destruct (proj1 Hs eq_refl) as [?|[_ Hnd]]; [done|].
  apply NoDup_cons in Hnd as [Hnotin _]. apply Hnotin. vm_compute. apply list_elem_of_here.
Defined.



Lemma flag_duplicates_app prev invoices more :
  flag_duplicates prev (invoices ++ more)
  = flag_duplicates prev invoices
    ++ flag_duplicates (prev ++ (dup_key <$> invoices)) more.
Proof.
  revert prev. induction invoices as [|inv rest IH]; intros prev; simpl.
  - by rewrite app_nil_r.
  - by rewrite IH, <- app_assoc.
Qed.

(** X25. Records appended to the input never change the results of the
    records before them: the results for a list are the first results for
    any longer list that starts with it. *)
Theorem earlier_results_unchanged (invoices more : list Invoice) :
  take (length invoices) (validate_invoices (invoices ++ more)).1
  = (validate_invoices invoices).1.
Proof.
  rewrite !validate_invoices_results, flag_duplicates_app.
  rewrite <- (flag_duplicates_length [] invoices). by rewrite take_app_length.
Qed.
